(** * Credibility scoring and vote handling of the story-detection app

    A shallow embedding of
      - [src/services/storyDetection.ts]: the class [StoryDetectionService]
        with [analyzeStoryContent], [generateConclusion], [updateStoryVote];
      - [src/components/CollaborativeFactChecking.tsx]: the React component's
        state and its handlers [analyzeStory] and [handleVote], then
        [fetchStories], [handleStoryClick], [getVotePercentage] and
        [filteredStories];
      - [src/components/misinformation/MisinformationAlerts.tsx]:
        [fetchAlerts] and [filteredAlerts];
      - the news-backed variant of the service: [analyzeStoryWithAI], the
        three [extract...] functions and its [fetchGlobalStories];
    followed by the properties of the credibility specification that these
    functions decide and by further properties of the code. *)

From Stdlib Require Import ZArith QArith Qround String Ascii DecimalString Lia Lqa.
From Stdlib Require Import Sorted.
From stdpp Require Import gmap strings list fin_maps.

Local Open Scope Z_scope.

(** ** JavaScript numbers

    A JavaScript [number] is a finite value, [NaN] or one of the two
    infinities.  Finite values are kept as exact rationals: the rounding of
    IEEE doubles and the sign of zero are not modelled.  The three special
    values are kept, because the service divides by a vote total that can be
    0. *)

Inductive number : Type :=
| Finite (q : Q)
| NaN
| Infinity
| NegInfinity.

Definition of_Z (z : Z) : number := Finite (inject_Z z).
Definition of_nat (n : nat) : number := of_Z (Z.of_nat n).

(** [x / y].  A zero divisor gives [NaN] for [0 / 0] and an infinity with the
    sign of the dividend otherwise. *)
Definition Number_div (a b : number) : number :=
  match a, b with
  | NaN, _ | _, NaN => NaN
  | Finite x, Finite y =>
      if Qeq_bool y 0
      then match Qnum x ?= 0 with
           | Eq => NaN
           | Gt => Infinity
           | Lt => NegInfinity
           end
      else Finite (x / y)
  | Finite _, (Infinity | NegInfinity) => Finite 0
  | Infinity, Finite y => if Qnum y <? 0 then NegInfinity else Infinity
  | NegInfinity, Finite y => if Qnum y <? 0 then Infinity else NegInfinity
  | (Infinity | NegInfinity), (Infinity | NegInfinity) => NaN
  end.

(** [x * y]. *)
Definition Number_mul (a b : number) : number :=
  let scaled (inf : number) (opp : number) (x : Q) :=
    match Qnum x ?= 0 with
    | Eq => NaN
    | Gt => inf
    | Lt => opp
    end in
  match a, b with
  | NaN, _ | _, NaN => NaN
  | Finite x, Finite y => Finite (x * y)
  | Finite x, Infinity | Infinity, Finite x => scaled Infinity NegInfinity x
  | Finite x, NegInfinity | NegInfinity, Finite x => scaled NegInfinity Infinity x
  | Infinity, Infinity | NegInfinity, NegInfinity => Infinity
  | Infinity, NegInfinity | NegInfinity, Infinity => NegInfinity
  end.

(** [x - y]. *)
Definition Number_sub (a b : number) : number :=
  match a, b with
  | NaN, _ | _, NaN => NaN
  | Finite x, Finite y => Finite (x - y)
  | Finite _, Infinity => NegInfinity
  | Finite _, NegInfinity => Infinity
  | Infinity, Finite _ | Infinity, NegInfinity => Infinity
  | NegInfinity, Finite _ | NegInfinity, Infinity => NegInfinity
  | Infinity, Infinity | NegInfinity, NegInfinity => NaN
  end.

(** [Math.round]: the integer [floor (x + 1/2)], ties going up; the special
    values are returned as they are. *)
Definition round_half_up (q : Q) : Z := Qfloor (q + (1 # 2)).

Definition Math_round (a : number) : number :=
  match a with
  | Finite q => of_Z (round_half_up q)
  | other => other
  end.

(** [x > y] on finite numbers, the only use the service makes of it. *)
Definition Number_gt (a b : number) : bool :=
  match a, b with
  | Finite x, Finite y => negb (Qle_bool x y)
  | Infinity, (Finite _ | NegInfinity) => true
  | Finite _, NegInfinity => true
  | _, _ => false
  end.

(** *** Conversion to string, as a template literal does it

    Integers print in decimal.  A fraction prints its integer part, a point
    and the digits of its decimal expansion (at most [fraction_fuel] of
    them).  JavaScript's exponent form for magnitudes from 10^21 on or below
    10^-6 is not modelled; the service only ever prints a list length, a
    [Math.round] result and the [spread] field. *)

Definition Z_toString (z : Z) : string := NilZero.string_of_int (Z.to_int z).

Definition digit_of (d : Z) : ascii := ascii_of_nat (48 + Z.to_nat d).

Fixpoint fraction_digits (fuel : nat) (r den : Z) : string :=
  match fuel with
  | O => EmptyString
  | S fuel' =>
      if r =? 0 then EmptyString
      else String (digit_of (10 * r / den))
                  (fraction_digits fuel' ((10 * r) mod den) den)
  end.

Definition fraction_fuel : nat := 20.

Definition Q_toString (q : Q) : string :=
  let n := Qnum q in
  let d := Z.pos (Qden q) in
  if n mod d =? 0 then Z_toString (n / d)
  else (if n <? 0 then "-" else "")
         +:+ Z_toString (Z.abs n / d)
         +:+ "." +:+ fraction_digits fraction_fuel (Z.abs n mod d) d.

Definition Number_toString (a : number) : string :=
  match a with
  | Finite q => Q_toString q
  | NaN => "NaN"
  | Infinity => "Infinity"
  | NegInfinity => "-Infinity"
  end.

(** [s.includes(t)]. *)
Fixpoint includes (s t : string) : bool :=
  String.prefix t s
  || match s with
     | EmptyString => false
     | String _ s' => includes s' t
     end.

(** ** The data model of [storyDetection.ts] *)

(** The string union ['fake' | 'real' | 'unverified' | 'investigating' |
    'debunked'] of [Story.verificationStatus]. *)
Module Status.
Inductive t : Type := fake | real | unverified | investigating | debunked.

(** The string each member is at run time. *)
Definition label (s : t) : string :=
  match s with
  | fake => "fake"
  | real => "real"
  | unverified => "unverified"
  | investigating => "investigating"
  | debunked => "debunked"
  end.

(** [a === b]. *)
Definition eqb (a b : t) : bool := String.eqb (label a) (label b).
End Status.

(** [keyof Story['votes']], the type of [voteType]. *)
Module VoteKey.
Inductive t : Type := credible | suspicious | fake.
End VoteKey.

(** The object [Story.votes]. *)
Module Votes.
Record t : Type := mk { credible : Z; suspicious : Z; fake : Z }.

(** [votes[voteType]]. *)
Definition get (v : t) (k : VoteKey.t) : Z :=
  match k with
  | VoteKey.credible => credible v
  | VoteKey.suspicious => suspicious v
  | VoteKey.fake => fake v
  end.

(** [{ ...votes, [voteType]: x }]. *)
Definition set (v : t) (k : VoteKey.t) (x : Z) : t :=
  match k with
  | VoteKey.credible => mk x (suspicious v) (fake v)
  | VoteKey.suspicious => mk (credible v) x (fake v)
  | VoteKey.fake => mk (credible v) (suspicious v) x
  end.

(** [credible + suspicious + fake], the divisor of the consensus ratio. *)
Definition total (v : t) : Z := credible v + suspicious v + fake v.
End Votes.

Module Factor.
Record t : Type := mk { name : string; score : number; description : string }.
End Factor.

Module Explanation.
Record t : Type :=
  mk { factors : list Factor.t; evidence : list string; conclusion : string }.
End Explanation.

(** [interface Story].  The vote counters are integers ([Z], exact also
    beyond 2^53); [spread] and [confidence] are finite numbers. *)
Module Story.
Record t : Type :=
  mk { id : string;
       title : string;
       description : string;
       spread : Q;
       confidence : Q;
       region : string;
       coordinates : Q * Q;
       sources : list string;
       verificationStatus : Status.t;
       dateDetected : string;
       votes : Votes.t;
       category : string;
       explanation : option Explanation.t }.

(** [{ ...s, votes: v }]. *)
Definition with_votes (s : t) (v : Votes.t) : t :=
  mk (id s) (title s) (description s) (spread s) (confidence s) (region s)
     (coordinates s) (sources s) (verificationStatus s) (dateDetected s)
     v (category s) (explanation s).

(** [{ ...s, verificationStatus: st }]. *)
Definition with_verificationStatus (s : t) (st : Status.t) : t :=
  mk (id s) (title s) (description s) (spread s) (confidence s) (region s)
     (coordinates s) (sources s) st (dateDetected s)
     (votes s) (category s) (explanation s).

(** [{ ...s, sources: l }]. *)
Definition with_sources (s : t) (l : list string) : t :=
  mk (id s) (title s) (description s) (spread s) (confidence s) (region s)
     (coordinates s) l (verificationStatus s) (dateDetected s)
     (votes s) (category s) (explanation s).

(** [{ ...s, spread: x }]. *)
Definition with_spread (s : t) (x : Q) : t :=
  mk (id s) (title s) (description s) x (confidence s) (region s)
     (coordinates s) (sources s) (verificationStatus s) (dateDetected s)
     (votes s) (category s) (explanation s).
End Story.

Module AnalysisResult.
Record t : Type :=
  mk { sentiment : number;
       topics : list string;
       entities : list string;
       credibilityScore : number;
       explanation : Explanation.t }.
End AnalysisResult.

(** The outcome of an awaited promise. *)
Inductive Promise (A : Type) : Type :=
| Resolved (value : A)
| Rejected (reason : string).
Arguments Resolved {A} value.
Arguments Rejected {A} reason.

(** ** [StoryDetectionService]: the analysis *)

(** [private generateConclusion(story)]. *)
Definition generateConclusion (story : Story.t) : string :=
  if Status.eqb (Story.verificationStatus story) Status.fake then
    "This story has been identified as false based on multiple factors including lack of credible sources and contradiction with established facts."
  else if Status.eqb (Story.verificationStatus story) Status.real then
    "This story has been verified as true with strong evidence and expert consensus."
  else
    "This story is currently under investigation. While some evidence suggests credibility, further verification is needed.".

(** [story.votes.credible / (story.votes.credible + story.votes.suspicious +
    story.votes.fake)], the expression both the score and the description of
    the third factor evaluate.  The sum is exact on [Z], as the code's is for
    safe integers. *)
Definition credible_ratio (story : Story.t) : number :=
  let votes := Story.votes story in
  Number_div (of_Z (Votes.credible votes))
             (of_Z (Votes.credible votes + Votes.suspicious votes + Votes.fake votes)).

(** [async analyzeStoryContent(story)].  Nothing in the [try] block throws,
    so the promise resolves with the object built there. *)
Definition analyzeStoryContent (story : Story.t) : Promise AnalysisResult.t :=
  let sentiment :=
    if Status.eqb (Story.verificationStatus story) Status.fake
    then Finite (-0.8) else Finite 0.6 in
  let topics := [Story.category story; "Misinformation"; "Fact Checking"] in
  let entities := Story.region story :: Story.sources story in
  let credibilityScore := Finite (Story.confidence story) in
  let sources_length := of_nat (length (Story.sources story)) in
  let explanation :=
    {| Explanation.factors :=
         [ {| Factor.name := "Source Reliability";
              Factor.score :=
                if Number_gt sources_length (of_Z 1) then Finite 0.8 else Finite 0.4;
              Factor.description :=
                "Story has " +:+ Number_toString sources_length +:+ " source"
                  +:+ (if Number_gt sources_length (of_Z 1) then "s" else "") |};
           {| Factor.name := "Spread Analysis";
              Factor.score :=
                Number_sub (of_Z 1)
                           (Number_div (Finite (Story.spread story)) (of_Z 100));
              Factor.description :=
                "Story has spread to " +:+ Number_toString (Finite (Story.spread story))
                  +:+ "% of potential audience" |};
           {| Factor.name := "Community Consensus";
              Factor.score := credible_ratio story;
              Factor.description :=
                Number_toString
                  (Math_round (Number_mul (credible_ratio story) (of_Z 100)))
                  +:+ "% of voters find it credible" |} ];
       Explanation.evidence :=
         [ "Verification Status: " +:+ Status.label (Story.verificationStatus story);
           "Confidence Score: "
             +:+ Number_toString
                   (Math_round (Number_mul (Finite (Story.confidence story)) (of_Z 100)))
             +:+ "%";
           "Category: " +:+ Story.category story ];
       Explanation.conclusion := generateConclusion story |} in
  Resolved
    {| AnalysisResult.sentiment := sentiment;
       AnalysisResult.topics := topics;
       AnalysisResult.entities := entities;
       AnalysisResult.credibilityScore := credibilityScore;
       AnalysisResult.explanation := explanation |}.

(** The factors of a resolved analysis: what the specification calls
    [computeFactors]. *)
Definition factors_of (p : Promise AnalysisResult.t) : list Factor.t :=
  match p with
  | Resolved r => Explanation.factors (AnalysisResult.explanation r)
  | Rejected _ => []
  end.

(** ** [StoryDetectionService]: the vote store

    [private stories: Story[]] is an array of references to story objects,
    and [updateStoryVote] changes the object it finds in place.  The objects
    live in [heap]; [stories] lists their addresses, so that an object listed
    twice is one object. *)

Definition loc : Type := positive.

Module Service.
Record t : Type := mk { heap : gmap loc Story.t; stories : list loc }.

(** [private stories: Story[] = []]; no method of the class adds to it. *)
Definition initial : t := mk ∅ [].

(** [this.stories.find(s => s.id === storyId)]: the first listed object
    with that id. *)
Fixpoint find_in (h : gmap loc Story.t) (refs : list loc) (storyId : string)
  : option loc :=
  match refs with
  | [] => None
  | l :: rest =>
      match h !! l with
      | Some s => if String.eqb (Story.id s) storyId then Some l
                  else find_in h rest storyId
      | None => find_in h rest storyId
      end
  end.

Definition find (svc : t) (storyId : string) : option loc :=
  find_in (heap svc) (stories svc) storyId.
End Service.

(** [story.votes[voteType]++], exact on [Z]; the code's double follows it
    as long as the counter is a safe integer. *)
Definition increment (voteType : VoteKey.t) (story : Story.t) : Story.t :=
  Story.with_votes story
    (Votes.set (Story.votes story) voteType
               (Votes.get (Story.votes story) voteType + 1)).

(** [async updateStoryVote(storyId, voteType)].  The awaited timer always
    resolves and nothing after it throws, so the [catch] never runs and the
    promise resolves. *)
Definition updateStoryVote (storyId : string) (voteType : VoteKey.t)
    (svc : Service.t) : Service.t * Promise unit :=
  match Service.find svc storyId with
  | Some l =>
      (Service.mk (alter (increment voteType) l (Service.heap svc))
                  (Service.stories svc),
       Resolved tt)
  | None => (svc, Resolved tt)
  end.

(** ** The component [CollaborativeFactChecking] *)

Module Component.
Inductive Filter : Type := all | investigating | real | fake | debunked.

(** The [useState] cells.  React state is replaced, never changed in place,
    so the stories are values here. *)
Record t : Type :=
  mk { stories : list Story.t;
       userVotes : gmap string VoteKey.t;
       filter : Filter;
       loading : bool;
       error : option string;
       selectedStory : option Story.t;
       analysis : option AnalysisResult.t }.

(** [setStories(prev => f(prev))]. *)
Definition setStories (f : list Story.t -> list Story.t) (c : t) : t :=
  mk (f (stories c)) (userVotes c) (filter c) (loading c) (error c)
     (selectedStory c) (analysis c).

(** [setUserVotes(prev => f(prev))]. *)
Definition setUserVotes (f : gmap string VoteKey.t -> gmap string VoteKey.t)
    (c : t) : t :=
  mk (stories c) (f (userVotes c)) (filter c) (loading c) (error c)
     (selectedStory c) (analysis c).

(** [setAnalysis(result)]. *)
Definition setAnalysis (result : AnalysisResult.t) (c : t) : t :=
  mk (stories c) (userVotes c) (filter c) (loading c) (error c)
     (selectedStory c) (Some result).
End Component.

(** The properties every object literal inherits from [Object.prototype];
    reading one of them from [userVotes] gives a function or an object. *)
Definition Object_prototype_keys : list string :=
  [ "constructor"; "__proto__"; "hasOwnProperty"; "isPrototypeOf";
    "propertyIsEnumerable"; "toLocaleString"; "toString"; "valueOf";
    "__defineGetter__"; "__defineSetter__"; "__lookupGetter__";
    "__lookupSetter__" ].

(** Whether [userVotes[storyId]] is truthy: an own entry is a non-empty
    string, an inherited one is an object. *)
Definition truthy_entry (userVotes : gmap string VoteKey.t) (storyId : string)
  : bool :=
  match userVotes !! storyId with
  | Some _ => true
  | None => existsb (String.eqb storyId) Object_prototype_keys
  end.

(** What a handler runs against: the component's current state, the service
    singleton and the console. *)
Record World : Type :=
  mkWorld { ui : Component.t; service : Service.t; console : list (string * string) }.

Definition update_ui (f : Component.t -> Component.t) (w : World) : World :=
  mkWorld (f (ui w)) (service w) (console w).

(** [console.error(label, error)]. *)
Definition console_error (label reason : string) (w : World) : World :=
  mkWorld (ui w) (service w) (console w ++ [(label, reason)]).

(** The branch on which [handleVote] finished.  The handler itself returns
    nothing on all three. *)
Inductive Path : Type :=
| ReturnedAtGuard
| FinishedTry
| FinishedCatch.

(** [{ ...story, votes: { ...story.votes, [voteType]: story.votes[voteType] + d } }]
    for the stories whose id is [storyId], the others as they are: the
    function both [setStories] calls of [handleVote] map over the list, with
    [d = 1] and [d = -1].  The sum is exact on [Z]; the code's double
    follows it as long as the counter is a safe integer. *)
Definition patch_votes (storyId : string) (voteType : VoteKey.t) (d : Z)
    (story : Story.t) : Story.t :=
  if String.eqb (Story.id story) storyId then
    Story.with_votes story
      (Votes.set (Story.votes story) voteType
                 (Votes.get (Story.votes story) voteType + d))
  else story.

(** [stories.find(s => s.id === storyId)]. *)
Definition find_story (stories : list Story.t) (storyId : string)
  : option Story.t :=
  List.find (fun s => String.eqb (Story.id s) storyId) stories.

Section Handlers.

(** [storyDetectionService.updateStoryVote] as the component sees it: a call
    that changes the service and resolves or rejects. *)
Variable service_updateStoryVote :
  string -> VoteKey.t -> Service.t -> Service.t * Promise unit.

(** [const analyzeStory = async (story) => ...]. *)
Definition analyzeStory (story : Story.t) (w : World) : World :=
  match analyzeStoryContent story with
  | Resolved result => update_ui (Component.setAnalysis result) w
  | Rejected reason => console_error "Error analyzing story:" reason w
  end.

(** [const handleVote = async (storyId, voteType) => ...].

    [render] is the state of the render that created the handler: the
    closure reads [userVotes] and [stories] from it.  The functional
    updates of [setStories] and [setUserVotes] apply to the current state
    [ui w]. *)
Definition handleVote (render : Component.t) (storyId : string)
    (voteType : VoteKey.t) (w : World) : World * Path :=
  if truthy_entry (Component.userVotes render) storyId then (w, ReturnedAtGuard)
  else
    let (svc, awaited) := service_updateStoryVote storyId voteType (service w) in
    let w := mkWorld (ui w) svc (console w) in
    match awaited with
    | Resolved _ =>
        let w := update_ui (Component.setStories
                              (map (patch_votes storyId voteType 1))) w in
        let w := update_ui (Component.setUserVotes
                              (fun prev => <[storyId := voteType]> prev)) w in
        (* Re-analyze the story after voting *)
        let updatedStory := find_story (Component.stories render) storyId in
        (match updatedStory with
         | Some story => analyzeStory story w
         | None => w
         end, FinishedTry)
    | Rejected reason =>
        let w := console_error "Error updating vote:" reason w in
        (* Revert the vote if the update fails *)
        let w := update_ui (Component.setStories
                              (map (patch_votes storyId voteType (-1)))) w in
        let w := update_ui (Component.setUserVotes
                              (fun prev => delete storyId prev)) w in
        (w, FinishedCatch)
    end.

End Handlers.

(** ** The mock data of [fetchGlobalStories]

    [now] stands for [new Date().toISOString()] at the time of the call. *)

Definition story_1 (now : string) : Story.t :=
    {| Story.id := "1";
       Story.title := "Breaking News: Major Scientific Discovery";
       Story.description :=
         "Scientists have made a groundbreaking discovery in quantum computing.";
       Story.sources := ["reliable-news.com"; "science-journal.org"];
       Story.dateDetected := now;
       Story.verificationStatus := Status.investigating;
       Story.confidence := 0.7;
       Story.spread := 60;
       Story.region := "Global";
       Story.coordinates := (0, 0)%Q;
       Story.category := "Science";
       Story.votes := Votes.mk 45 20 5;
       Story.explanation :=
         Some {| Explanation.factors :=
                   [ Factor.mk "Source Reliability" (Finite 0.85)
                       "Published in peer-reviewed journals and reputable news sources";
                     Factor.mk "Expert Verification" (Finite 0.75)
                       "Multiple independent experts have reviewed the findings";
                     Factor.mk "Evidence Quality" (Finite 0.65)
                       "Strong experimental evidence with reproducible results" ];
                 Explanation.evidence :=
                   [ "Peer-reviewed publication in Nature";
                     "Independent verification by three research teams";
                     "Detailed methodology available" ];
                 Explanation.conclusion :=
                   "This story appears credible based on strong evidence and expert verification." |} |}.

Definition story_2 (now : string) : Story.t :=
    {| Story.id := "2";
       Story.title := "Viral Social Media Claim";
       Story.description :=
         "A viral post claims a new miracle cure for a common condition.";
       Story.sources := ["social-media.com"];
       Story.dateDetected := now;
       Story.verificationStatus := Status.fake;
       Story.confidence := 0.95;
       Story.spread := 85;
       Story.region := "Global";
       Story.coordinates := (0, 0)%Q;
       Story.category := "Health";
       Story.votes := Votes.mk 10 30 150;
       Story.explanation :=
         Some {| Explanation.factors :=
                   [ Factor.mk "Source Reliability" (Finite 0.2)
                       "Unverified social media post without credible sources";
                     Factor.mk "Scientific Evidence" (Finite 0.1)
                       "No peer-reviewed studies or clinical trials supporting the claim";
                     Factor.mk "Expert Consensus" (Finite 0.15)
                       "Contradicts established medical knowledge" ];
                 Explanation.evidence :=
                   [ "No scientific studies cited";
                     "Contradicts FDA guidelines";
                     "Similar claims previously debunked" ];
                 Explanation.conclusion :=
                   "This claim is likely false due to lack of evidence and contradiction with medical consensus." |} |}.

(** [async fetchGlobalStories()]. *)
Definition fetchGlobalStories (now : string) : list Story.t :=
  [story_1 now; story_2 now].

(** ** Sample inputs *)

Definition sample_date : string := "2024-05-01T12:00:00.000Z".

(** The first mock story. *)
Definition story1 : Story.t := story_1 sample_date.

(** A story without sources, as the news loader builds one for an article
    without url ([sources: [article.url].filter(Boolean)]). *)
Definition unsourced_story : Story.t := Story.with_sources story1 [].

(** A story nobody has voted on, as the news loader builds every story
    ([votes: { credible: 0, suspicious: 0, fake: 0 }]). *)
Definition unvoted_story : Story.t := Story.with_votes story1 (Votes.mk 0 0 0).

(** The component once [fetchStories] has stored the mock stories. *)
Definition loaded : Component.t :=
  Component.mk (fetchGlobalStories sample_date) ∅ Component.all false None None None.

Definition world0 : World := mkWorld loaded Service.initial [].

(** The component after a vote on story "1" has been recorded. *)
Definition voted : Component.t :=
  Component.setUserVotes (fun prev => <["1" := VoteKey.credible]> prev) loaded.

(** A service call that rejects the way the [catch] of [updateStoryVote]
    does: [throw new Error('Failed to update vote')]. *)
Definition rejecting_updateStoryVote (storyId : string) (voteType : VoteKey.t)
    (svc : Service.t) : Service.t * Promise unit :=
  (svc, Rejected "Failed to update vote").

(** A service that holds story 1 once, listed twice, and story 2. *)
Definition sample_service : Service.t :=
  Service.mk (<[1%positive := story1]> (<[2%positive := story_2 sample_date]> ∅))
             [1%positive; 2%positive; 1%positive].

(** ** The specification's wording, for comparison *)

(** "1 source" vs "N sources": the noun is singular for a count of one. *)
Definition counted_sources (n : Z) : string :=
  Z_toString n +:+ (if n =? 1 then " source" else " sources").

(** A number rounded to [k] decimals, ties going up. *)
Definition round_to_decimals (k : nat) (q : Q) : Q :=
  (inject_Z (round_half_up (q * inject_Z (10 ^ Z.of_nat k)))
   / inject_Z (10 ^ Z.of_nat k))%Q.

(** The scenario of the specification: any story given two sources, a spread
    of 60 and the votes 45 / 20 / 5. *)
Definition scenario (base : Story.t) (a b : string) : Story.t :=
  Story.with_votes (Story.with_spread (Story.with_sources base [a; b]) 60)
                   (Votes.mk 45 20 5).

(** The tally shown for a story: the votes of the story [find] returns. *)
Definition tally (stories : list Story.t) (storyId : string) : option Votes.t :=
  Story.votes <$> find_story stories storyId.

(** ** The rest of [CollaborativeFactChecking] *)

(** The string each member of the filter union is at run time. *)
Definition Filter_label (f : Component.Filter) : string :=
  match f with
  | Component.all => "all"
  | Component.investigating => "investigating"
  | Component.real => "real"
  | Component.fake => "fake"
  | Component.debunked => "debunked"
  end.

(** [setLoading(b)]. *)
Definition setLoading (b : bool) (c : Component.t) : Component.t :=
  Component.mk (Component.stories c) (Component.userVotes c) (Component.filter c)
               b (Component.error c) (Component.selectedStory c)
               (Component.analysis c).

(** [setError(e)]. *)
Definition setError (e : option string) (c : Component.t) : Component.t :=
  Component.mk (Component.stories c) (Component.userVotes c) (Component.filter c)
               (Component.loading c) e (Component.selectedStory c)
               (Component.analysis c).

(** [setSelectedStory(story)]. *)
Definition setSelectedStory (story : option Story.t) (c : Component.t)
  : Component.t :=
  Component.mk (Component.stories c) (Component.userVotes c) (Component.filter c)
               (Component.loading c) (Component.error c) story
               (Component.analysis c).

(** [setFilter(f)], the handler of the five filter buttons. *)
Definition setFilter (f : Component.Filter) (c : Component.t) : Component.t :=
  Component.mk (Component.stories c) (Component.userVotes c) f
               (Component.loading c) (Component.error c)
               (Component.selectedStory c) (Component.analysis c).

(** [async fetchGlobalStories()] as a call: nothing in its [try] block
    throws, so the promise resolves with the mock list. *)
Definition service_fetchGlobalStories (now : string) : Promise (list Story.t) :=
  Resolved (fetchGlobalStories now).

(** [const fetchStories = async () => ...], given how the awaited
    [fetchGlobalStories] call ended. *)
Definition fetchStories (awaited : Promise (list Story.t)) (w : World) : World :=
  let w := update_ui (setLoading true) w in
  let w :=
    match awaited with
    | Resolved fetchedStories =>
        let w := update_ui (Component.setStories (fun _ => fetchedStories)) w in
        update_ui (setError None) w
    | Rejected reason =>
        let w := update_ui
                   (setError (Some "Failed to fetch stories. Please try again later."))
                   w in
        console_error "Error fetching stories:" reason w
    end in
  update_ui (setLoading false) w.

(** [const handleStoryClick = (story) => { setSelectedStory(story); }]. *)
Definition handleStoryClick (story : Story.t) (w : World) : World :=
  update_ui (setSelectedStory (Some story)) w.

(** The body of the effect on [selectedStory]: [if (selectedStory) {
    analyzeStory(selectedStory); }].  React runs it after a render in which
    [selectedStory] is another object than before, and not otherwise: it is
    applied below only where the selection changes. *)
Definition selectedStory_effect (w : World) : World :=
  match Component.selectedStory (ui w) with
  | Some story => analyzeStory story w
  | None => w
  end.

(** The object [getVotePercentage] returns. *)
Module VotePercentage.
Record t : Type := mk { credible : number; suspicious : number; fake : number }.
End VotePercentage.

(** [const getVotePercentage = (votes) => ...].  Total, shares and products
    are exact here; the code's doubles round each step, which can move a
    share that is a whole number and a half to the integer below. *)
Definition getVotePercentage (votes : Votes.t) : VotePercentage.t :=
  let total :=
    of_Z (Votes.credible votes + Votes.suspicious votes + Votes.fake votes) in
  {| VotePercentage.credible :=
       Math_round (Number_mul (Number_div (of_Z (Votes.credible votes)) total)
                              (of_Z 100));
     VotePercentage.suspicious :=
       Math_round (Number_mul (Number_div (of_Z (Votes.suspicious votes)) total)
                              (of_Z 100));
     VotePercentage.fake :=
       Math_round (Number_mul (Number_div (of_Z (Votes.fake votes)) total)
                              (of_Z 100)) |}.

(** [const filteredStories = stories.filter(story => filter === 'all' ? true
    : story.verificationStatus === filter)]. *)
Definition filteredStories (c : Component.t) : list Story.t :=
  List.filter
    (fun story =>
       if String.eqb (Filter_label (Component.filter c)) "all" then true
       else String.eqb (Status.label (Story.verificationStatus story))
                       (Filter_label (Component.filter c)))
    (Component.stories c).

(** The analysis the list shows under a story: [selectedStory?.id ===
    story.id && analysis && (...)]. *)
Definition shown_analysis (c : Component.t) (story : Story.t)
  : option AnalysisResult.t :=
  match Component.selectedStory c with
  | Some selected =>
      if String.eqb (Story.id selected) (Story.id story)
      then Component.analysis c else None
  | None => None
  end.

(** The text of the three vote buttons: [Credible
    ({getVotePercentage(story.votes).credible}%)] and its two siblings. *)
Definition vote_button_text (story : Story.t) (voteType : VoteKey.t) : string :=
  let p := getVotePercentage (Story.votes story) in
  match voteType with
  | VoteKey.credible =>
      "Credible (" +:+ Number_toString (VotePercentage.credible p) +:+ "%)"
  | VoteKey.suspicious =>
      "Suspicious (" +:+ Number_toString (VotePercentage.suspicious p) +:+ "%)"
  | VoteKey.fake =>
      "Fake (" +:+ Number_toString (VotePercentage.fake p) +:+ "%)"
  end.

(** [disabled={!!userVotes[story.id]}] of the three vote buttons. *)
Definition vote_button_disabled (c : Component.t) (story : Story.t) : bool :=
  truthy_entry (Component.userVotes c) (Story.id story).

(** The stories of one status, for counting. *)
Definition with_status (st : Status.t) (stories : list Story.t) : list Story.t :=
  List.filter (fun s => Status.eqb (Story.verificationStatus s) st) stories.


(** An unverified story, as the news loader builds every story, and the
    component holding it in front of the mock stories. *)
Definition unverified_story : Story.t :=
  Story.with_verificationStatus story1 Status.unverified.

Definition loaded_with_unverified : Component.t :=
  Component.setStories (fun l => unverified_story :: l) loaded.

(** What one story may turn into when a vote is handled: the same story
    with at most [votes[voteType]] changed, and unchanged altogether when
    its id is another one. *)
Definition vote_touched (storyId : string) (voteType : VoteKey.t)
    (before after : Story.t) : Prop :=
  Story.with_votes after (Story.votes before) = before
  /\ (Story.id before <> storyId -> after = before)
  /\ (forall k, k <> voteType ->
        Votes.get (Story.votes after) k = Votes.get (Story.votes before) k).


(** [Number.MAX_SAFE_INTEGER].  The counters are integers ([Z]) here and
    doubles in the code: up to this value, in either sign, every integer is a
    double of its own and a sum that stays within it is exact.  Statements
    about sums and increments of counters assume it. *)
Definition MAX_SAFE_INTEGER : Z := 2 ^ 53 - 1.

Definition safe_integer (z : Z) : Prop :=
  - MAX_SAFE_INTEGER <= z <= MAX_SAFE_INTEGER.



(** A run of [updateStoryVote] calls, one after the other. *)
Definition run_votes (calls : list (string * VoteKey.t)) (svc : Service.t)
  : Service.t :=
  fold_left (fun svc call => fst (updateStoryVote (fst call) (snd call) svc))
            calls svc.

(** The second mock story, and the world in which it has been clicked. *)
Definition story2 : Story.t := story_2 sample_date.

Definition world_selected : World :=
  update_ui (setSelectedStory (Some story2)) world0.

(** ** The component [MisinformationAlerts] *)

(** The string union ['low' | 'medium' | 'high'] of [Alert.severity]. *)
Module Severity.
Inductive t : Type := low | medium | high.

Definition label (s : t) : string :=
  match s with
  | low => "low"
  | medium => "medium"
  | high => "high"
  end.

(** The position in the order low, medium, high. *)
Definition rank (s : t) : Z :=
  match s with
  | low => 0
  | medium => 1
  | high => 2
  end.
End Severity.

(** [interface Alert]. *)
Module Alert.
Record t : Type :=
  mk { id : string;
       title : string;
       description : string;
       severity : Severity.t;
       category : string;
       timestamp : string;
       explanation : Explanation.t }.
End Alert.

(** The callback of [stories.map(story => ({ ... }))] in [fetchAlerts]. *)
Definition alert_of_story (story : Story.t) : Alert.t :=
  {| Alert.id := Story.id story;
     Alert.title := Story.title story;
     Alert.description := Story.description story;
     Alert.severity :=
       if Number_gt (Finite (Story.confidence story)) (Finite 0.8)
       then Severity.high
       else if Number_gt (Finite (Story.confidence story)) (Finite 0.5)
            then Severity.medium
            else Severity.low;
     Alert.category := Story.category story;
     Alert.timestamp := Story.dateDetected story;
     Alert.explanation :=
       {| Explanation.factors :=
            [ {| Factor.name := "Source Reliability";
                 Factor.score :=
                   if Number_gt (of_nat (length (Story.sources story))) (of_Z 1)
                   then Finite 0.8 else Finite 0.4;
                 Factor.description :=
                   "Story has "
                     +:+ Number_toString (of_nat (length (Story.sources story)))
                     +:+ " source"
                     +:+ (if Number_gt (of_nat (length (Story.sources story)))
                                       (of_Z 1)
                          then "s" else "") |};
              {| Factor.name := "Spread Analysis";
                 Factor.score :=
                   Number_sub (of_Z 1)
                              (Number_div (Finite (Story.spread story)) (of_Z 100));
                 Factor.description :=
                   "Story has spread to "
                     +:+ Number_toString (Finite (Story.spread story))
                     +:+ "% of potential audience" |};
              {| Factor.name := "Community Consensus";
                 Factor.score :=
                   Number_div
                     (of_Z (Votes.credible (Story.votes story)))
                     (of_Z (Votes.credible (Story.votes story)
                            + Votes.suspicious (Story.votes story)
                            + Votes.fake (Story.votes story)));
                 Factor.description :=
                   Number_toString
                     (Math_round
                        (Number_mul
                           (Number_div
                              (of_Z (Votes.credible (Story.votes story)))
                              (of_Z (Votes.credible (Story.votes story)
                                     + Votes.suspicious (Story.votes story)
                                     + Votes.fake (Story.votes story))))
                           (of_Z 100)))
                     +:+ "% of voters find it credible" |} ];
          Explanation.evidence :=
            [ "Verification Status: "
                +:+ Status.label (Story.verificationStatus story);
              "Confidence Score: "
                +:+ Number_toString
                      (Math_round
                         (Number_mul (Finite (Story.confidence story)) (of_Z 100)))
                +:+ "%";
              "Category: " +:+ Story.category story ];
          Explanation.conclusion :=
            if Status.eqb (Story.verificationStatus story) Status.fake then
              "This story has been identified as false based on multiple factors including lack of credible sources and contradiction with established facts."
            else if Status.eqb (Story.verificationStatus story) Status.real then
              "This story has been verified as true with strong evidence and expert consensus."
            else
              "This story is currently under investigation. While some evidence suggests credibility, further verification is needed." |} |}.

(** The [useState] cells of [MisinformationAlerts] and its console. *)
Module Alerts.
Inductive Filter : Type := all | low | medium | high.

Definition Filter_label (f : Filter) : string :=
  match f with
  | all => "all"
  | low => "low"
  | medium => "medium"
  | high => "high"
  end.

Record t : Type :=
  mk { alerts : list Alert.t;
       loading : bool;
       error : option string;
       selectedAlert : option Alert.t;
       filter : Filter;
       console : list (string * string) }.
End Alerts.

(** [const fetchAlerts = async () => ...], given how the awaited
    [fetchGlobalStories] call ended. *)
Definition fetchAlerts (awaited : Promise (list Story.t)) (a : Alerts.t)
  : Alerts.t :=
  (* setLoading(true) *)
  let a := Alerts.mk (Alerts.alerts a) true (Alerts.error a)
                     (Alerts.selectedAlert a) (Alerts.filter a)
                     (Alerts.console a) in
  let a :=
    match awaited with
    | Resolved stories =>
        let newAlerts := map alert_of_story stories in
        (* setAlerts(newAlerts); setError(null) *)
        Alerts.mk newAlerts (Alerts.loading a) None
                  (Alerts.selectedAlert a) (Alerts.filter a) (Alerts.console a)
    | Rejected reason =>
        (* setError(...); console.error(...) *)
        Alerts.mk (Alerts.alerts a) (Alerts.loading a)
                  (Some "Failed to fetch alerts. Please try again later.")
                  (Alerts.selectedAlert a) (Alerts.filter a)
                  (Alerts.console a ++ [("Error fetching alerts:", reason)])
    end in
  (* finally: setLoading(false) *)
  Alerts.mk (Alerts.alerts a) false (Alerts.error a)
            (Alerts.selectedAlert a) (Alerts.filter a) (Alerts.console a).

(** [const filteredAlerts = alerts.filter(alert => filter === 'all' ? true :
    alert.severity === filter)]. *)
Definition filteredAlerts (filter : Alerts.Filter) (alerts : list Alert.t)
  : list Alert.t :=
  List.filter
    (fun alert =>
       if String.eqb (Alerts.Filter_label filter) "all" then true
       else String.eqb (Severity.label (Alert.severity alert))
                       (Alerts.Filter_label filter))
    alerts.

(** The severity [alert_of_story] gives a confidence: [confidence > 0.8 ?
    'high' : confidence > 0.5 ? 'medium' : 'low']. *)
Definition severity_of (confidence : Q) : Severity.t :=
  if Number_gt (Finite confidence) (Finite 0.8) then Severity.high
  else if Number_gt (Finite confidence) (Finite 0.5) then Severity.medium
  else Severity.low.


(** ** The news-backed variant of [StoryDetectionService]

    The variant of the service that loads headlines and asks a language
    model about each one.  The two network calls are outside: a function
    here takes what the awaited call gave.  Text is ASCII text: [toLowerCase]
    and the classes [\s] and [\d] are modelled on ASCII characters. *)

(** [Partial<Story>] of this variant, whose [Story] has neither category nor
    explanation: every property may be missing. *)
Module PartialStory.
Record t : Type :=
  mk { id : option string;
       title : option string;
       description : option string;
       spread : option Q;
       confidence : option Q;
       region : option string;
       coordinates : option (Q * Q);
       sources : option (list string);
       verificationStatus : option Status.t;
       dateDetected : option string;
       votes : option Votes.t }.
End PartialStory.

(** [c.toLowerCase()] on one character. *)
Definition toLowerCase_char (c : ascii) : ascii :=
  let n := nat_of_ascii c in
  if ((65 <=? n) && (n <=? 90))%nat then ascii_of_nat (n + 32) else c.

(** [s.toLowerCase()]. *)
Fixpoint toLowerCase (s : string) : string :=
  match s with
  | EmptyString => EmptyString
  | String c rest => String (toLowerCase_char c) (toLowerCase rest)
  end.

(** [private extractVerificationStatus(analysis)]. *)
Definition extractVerificationStatus (analysis : string) : Status.t :=
  if includes (toLowerCase analysis) "fake" then Status.fake
  else if includes (toLowerCase analysis) "real" then Status.real
  else if includes (toLowerCase analysis) "debunked" then Status.debunked
  else if includes (toLowerCase analysis) "investigating" then Status.investigating
  else Status.unverified.

(** The class [\d]. *)
Definition is_digit (c : ascii) : bool :=
  let n := nat_of_ascii c in ((48 <=? n) && (n <=? 57))%nat.

(** The class [[:\s]]: a colon or white space (tab, line feed, vertical tab,
    form feed, carriage return, space). *)
Definition is_separator (c : ascii) : bool :=
  let n := nat_of_ascii c in
  (n =? 58)%nat || ((9 <=? n) && (n <=? 13))%nat || (n =? 32)%nat.

(** The longest prefix of characters of a class, and what follows it: what a
    greedy [+] or [*] takes. *)
Fixpoint span (p : ascii -> bool) (s : string) : string * string :=
  match s with
  | EmptyString => (EmptyString, EmptyString)
  | String c rest =>
      if p c then let (taken, left) := span p rest in (String c taken, left)
      else (EmptyString, s)
  end.

(** What follows the keyword when [s] starts with it in any letter case
    (flag [i]); the keyword is given in lower case. *)
Fixpoint after_keyword (keyword s : string) : option string :=
  match keyword, s with
  | EmptyString, _ => Some s
  | String k keyword', String c rest =>
      if Ascii.eqb (toLowerCase_char c) k then after_keyword keyword' rest
      else None
  | String _ _, EmptyString => None
  end.

(** A match of [/keyword[:\s]+(\d+)/i] that starts at the first character
    of [s]: the digits captured.  The two classes are disjoint, so the greedy
    choice is the only one. *)
Definition match_here (keyword s : string) : option string :=
  match after_keyword keyword s with
  | Some rest =>
      let (separators, rest) := span is_separator rest in
      match separators with
      | EmptyString => None
      | String _ _ =>
          let (digits, _) := span is_digit rest in
          match digits with
          | EmptyString => None
          | String _ _ => Some digits
          end
      end
  | None => None
  end.

(** [analysis.match(/keyword[:\s]+(\d+)/i)]: the capture of the leftmost
    match. *)
Fixpoint match_number (keyword analysis : string) : option string :=
  match match_here keyword analysis with
  | Some digits => Some digits
  | None =>
      match analysis with
      | EmptyString => None
      | String _ rest => match_number keyword rest
      end
  end.

(** [parseInt(digits)] for a string of decimal digits: the integer they
    spell.  A double cannot hold every large integer, but the only use below
    cuts the value to at most 100, which makes the rounding immaterial. *)
Definition parseInt (digits : string) : Z :=
  fold_left (fun value c => 10 * value + (Z.of_nat (nat_of_ascii c) - 48))
            (list_ascii_of_string digits) 0.

(** [match ? Math.min(100, Math.max(0, parseInt(match[1]))) : 50]. *)
Definition clamped_or_50 (found : option string) : Z :=
  match found with
  | Some digits => Z.min 100 (Z.max 0 (parseInt digits))
  | None => 50
  end.

(** [private extractConfidence(analysis)]. *)
Definition extractConfidence (analysis : string) : Z :=
  clamped_or_50 (match_number "confidence" analysis).

(** [private extractSpread(analysis)]. *)
Definition extractSpread (analysis : string) : Z :=
  clamped_or_50 (match_number "spread" analysis).

(** [private async analyzeStoryWithAI(story)], given how the awaited
    completion ended: resolved with the content of the first choice, if there
    is one, or rejected.  The result comes with what was logged. *)
Definition analyzeStoryWithAI (story : PartialStory.t)
    (awaited : Promise (option string))
  : PartialStory.t * list (string * string) :=
  match awaited with
  | Resolved content =>
      let analysis := match content with
                      | Some text => text
                      | None => ""
                      end in
      ({| PartialStory.id := PartialStory.id story;
          PartialStory.title := PartialStory.title story;
          PartialStory.description := PartialStory.description story;
          PartialStory.spread := Some (inject_Z (extractSpread analysis));
          PartialStory.confidence := Some (inject_Z (extractConfidence analysis));
          PartialStory.region := PartialStory.region story;
          PartialStory.coordinates := PartialStory.coordinates story;
          PartialStory.sources := PartialStory.sources story;
          PartialStory.verificationStatus :=
            Some (extractVerificationStatus analysis);
          PartialStory.dateDetected := PartialStory.dateDetected story;
          PartialStory.votes := PartialStory.votes story |},
       [])
  | Rejected reason => (story, [("Error analyzing story with AI:", reason)])
  end.

(** [story.verificationStatus === 'st']. *)
Definition status_is (story : PartialStory.t) (st : Status.t) : bool :=
  match PartialStory.verificationStatus story with
  | Some s => Status.eqb s st
  | None => false
  end.

(** The predicate of the [filter] in [fetchGlobalStories]; [&&] binds tighter
    than [||]. *)
Definition kept (story : PartialStory.t) : bool :=
  (bool_decide (is_Some (PartialStory.id story))
   && bool_decide (is_Some (PartialStory.title story))
   && bool_decide (is_Some (PartialStory.description story))
   && status_is story Status.fake)
  || status_is story Status.real
  || status_is story Status.unverified
  || status_is story Status.investigating
  || status_is story Status.debunked.

(** [story.spread || 0]. *)
Definition spread_or_0 (story : PartialStory.t) : Q :=
  match PartialStory.spread story with
  | Some q => q
  | None => 0
  end.

(** [(a, b) => (b.spread || 0) - (a.spread || 0)] is negative or zero: [a]
    may stay in front of [b]. *)
Definition before (a b : PartialStory.t) : bool :=
  Qle_bool (spread_or_0 b - spread_or_0 a) 0.

(** [.sort(compare)].  The sort is stable and the comparator is a
    consistent order, so the result is the one any stable sort gives; it is
    computed here by insertion from the right. *)
Fixpoint insert_sorted (x : PartialStory.t) (l : list PartialStory.t)
  : list PartialStory.t :=
  match l with
  | [] => [x]
  | y :: rest => if before x y then x :: l else y :: insert_sorted x rest
  end.

Definition sort_by_spread (l : list PartialStory.t) : list PartialStory.t :=
  foldr insert_sorted [] l.

(** [async fetchGlobalStories()] of this variant, given the stories
    [fetchNewsFromMultipleRegions] resolved with and, for each, how its
    completion ended. *)
Definition fetchGlobalStories_news
    (rawStories : list (PartialStory.t * Promise (option string)))
  : list PartialStory.t :=
  let analyzedStories :=
    map (fun raw => fst (analyzeStoryWithAI (fst raw) (snd raw))) rawStories in
  sort_by_spread (List.filter kept analyzedStories).

(** The order the comparator sorts by: [a] has at least the spread of [b]. *)
Definition spread_ge (a b : PartialStory.t) : Prop :=
  (spread_or_0 b <= spread_or_0 a)%Q.


(** A story as [fetchNewsFromMultipleRegions] builds one from an article,
    and two loaded stories with how their completions ended. *)
Definition loaded_story (url title description region : string)
    (spread : Z) (confidence : Q) (coordinates : Q * Q) (now : string)
  : PartialStory.t :=
  {| PartialStory.id := Some url;
     PartialStory.title := Some title;
     PartialStory.description := Some description;
     PartialStory.spread := Some (inject_Z spread);
     PartialStory.confidence := Some confidence;
     PartialStory.region := Some region;
     PartialStory.coordinates := Some coordinates;
     PartialStory.sources := Some [url];
     PartialStory.verificationStatus := Some Status.unverified;
     PartialStory.dateDetected := Some now;
     PartialStory.votes := Some (Votes.mk 0 0 0) |}.

Definition sample_raw : list (PartialStory.t * Promise (option string)) :=
  [ (loaded_story "https://news.example/a" "Headline A" "About A" "US" 12 0.3
                  (37.5, -95)%Q sample_date,
     Resolved (Some "Status: FAKE. Confidence: 90. Spread: 80"));
    (loaded_story "https://news.example/b" "Headline B" "About B" "EU" 40 0.6
                  (1, -2)%Q sample_date,
     Rejected "429 Too Many Requests") ].

(** * Properties *)

(** ** Numbers and strings *)

Lemma Q_toString_inject_Z (n : Z) : Q_toString (inject_Z n) = Z_toString n.
Proof.
  unfold Q_toString, inject_Z; cbn [Qnum Qden].
  by rewrite Z.mod_1_r, Z.div_1_r.
Qed.

Lemma Number_toString_of_Z (n : Z) : Number_toString (of_Z n) = Z_toString n.
Proof. apply Q_toString_inject_Z. Qed.

(** [Math.round] gives an integer at distance at most 1/2. *)
Lemma round_half_up_nearest (q : Q) :
  (inject_Z (round_half_up q) - (1 # 2) <= q)%Q /\
  (q < inject_Z (round_half_up q) + (1 # 2))%Q.
Proof.
  unfold round_half_up.
  pose proof (Qfloor_le (q + (1 # 2))) as Hlo.
  pose proof (Qlt_floor (q + (1 # 2))) as Hhi.
  rewrite inject_Z_plus in Hhi.
  change (inject_Z 1) with 1%Q in Hhi.
  split; lra.
Qed.

Lemma round_half_up_range (q : Q) (lo hi : Z) :
  (inject_Z lo <= q)%Q -> (q <= inject_Z hi)%Q ->
  lo <= round_half_up q <= hi.
Proof.
  intros Hlo Hhi. destruct (round_half_up_nearest q) as [Hdown Hup].
  split.
  - assert (H : (inject_Z lo < inject_Z (round_half_up q + 1))%Q).
    { rewrite inject_Z_plus. change (inject_Z 1) with 1%Q. lra. }
    rewrite <- Zlt_Qlt in H. lia.
  - assert (H : (inject_Z (round_half_up q) < inject_Z (hi + 1))%Q).
    { rewrite inject_Z_plus. change (inject_Z 1) with 1%Q. lra. }
    rewrite <- Zlt_Qlt in H. lia.
Qed.

Lemma Number_gt_of_Z (a b : Z) : Number_gt (of_Z a) (of_Z b) = (b <? a).
Proof.
  unfold Number_gt, of_Z, Qle_bool, inject_Z; cbn [Qnum Qden].
  rewrite !Z.mul_1_r.
  destruct (Z.leb_spec a b), (Z.ltb_spec b a); simpl; auto; lia.
Qed.

(** Division of two integers by the rules of [Number_div]. *)
Lemma Number_div_of_Z (a b : Z) :
  Number_div (of_Z a) (of_Z b) =
  if b =? 0 then
    match a ?= 0 with Eq => NaN | Gt => Infinity | Lt => NegInfinity end
  else Finite (inject_Z a / inject_Z b).
Proof.
  unfold Number_div, of_Z, Qeq_bool, inject_Z; cbn [Qnum Qden].
  rewrite Z.mul_1_r. change (0 * 1) with 0.
  by destruct (Z.eqb_spec b 0).
Qed.

(** ** The analysis always resolves *)

Lemma analyzeStoryContent_resolves (story : Story.t) :
  exists r, analyzeStoryContent story = Resolved r.
Proof. unfold analyzeStoryContent. eauto. Qed.

(** The three factors, for any story: names, scores and descriptions with
    the printed numbers made explicit. *)
Lemma factors_of_analysis (story : Story.t) :
  let n := Z.of_nat (length (Story.sources story)) in
  factors_of (analyzeStoryContent story) =
  [ Factor.mk "Source Reliability"
      (if 1 <? n then Finite 0.8 else Finite 0.4)
      ("Story has " +:+ Z_toString n +:+ " source" +:+ (if 1 <? n then "s" else ""));
    Factor.mk "Spread Analysis"
      (Finite (1 - Story.spread story / 100))
      ("Story has spread to " +:+ Q_toString (Story.spread story)
         +:+ "% of potential audience");
    Factor.mk "Community Consensus"
      (credible_ratio story)
      (Number_toString (Math_round (Number_mul (credible_ratio story) (of_Z 100)))
         +:+ "% of voters find it credible") ].
Proof.
  intros n. unfold analyzeStoryContent, factors_of.
  cbn [AnalysisResult.explanation Explanation.factors].
  unfold of_nat. fold n.
  rewrite Number_gt_of_Z, Number_toString_of_Z.
  reflexivity.
Qed.

(** ** The conclusion *)

Lemma generateConclusion_status (story other : Story.t) :
  generateConclusion story =
  generateConclusion
    (Story.with_verificationStatus other (Story.verificationStatus story)).
Proof. reflexivity. Qed.

(** C5: the conclusion depends on the verification status alone and takes
    three values over the five statuses.  The one for 'fake' contains
    "identified as false" and differs from the one for 'debunked';
    'debunked', 'unverified' and 'investigating' give the same conclusion,
    which contains "under investigation"; 'real' gives a third one, which
    says the story is verified as true. *)
Theorem generateConclusion_three_way (story other : Story.t) :
  let conclusion st :=
    generateConclusion (Story.with_verificationStatus other st) in
  generateConclusion story = conclusion (Story.verificationStatus story)
  /\ includes (conclusion Status.fake) "identified as false" = true
  /\ conclusion Status.fake <> conclusion Status.debunked
  /\ conclusion Status.debunked = conclusion Status.unverified
  /\ conclusion Status.debunked = conclusion Status.investigating
  /\ includes (conclusion Status.investigating) "under investigation" = true
  /\ includes (conclusion Status.real) "verified as true" = true
  /\ conclusion Status.real <> conclusion Status.fake
  /\ conclusion Status.real <> conclusion Status.debunked.
Proof.
  intros conclusion.
  split; [apply generateConclusion_status |].
  repeat split; try reflexivity; discriminate.
Qed.

(** ** The analysis *)



(** ** The factors *)

(** For a story with at least one source the first description has the
    count with its noun in the right number. *)
Lemma source_description_counted (story : Story.t) :
  Story.sources story <> [] ->
  Factor.description <$> factors_of (analyzeStoryContent story) !! 0%nat =
  Some ("Story has "
          +:+ counted_sources (Z.of_nat (length (Story.sources story)))).
Proof.
  intros Hsources. rewrite factors_of_analysis. cbn [lookup list_lookup fmap option_fmap option_map Factor.description].
  unfold counted_sources.
  assert (Hn : 1 <= Z.of_nat (length (Story.sources story))).
  { destruct (Story.sources story); [contradiction | cbn [length]; lia]. }
  destruct (Z.ltb_spec 1 (Z.of_nat (length (Story.sources story)))),
           (Z.eqb_spec (Z.of_nat (length (Story.sources story))) 1);
    try lia; reflexivity.
Qed.

(** C3, at a story without sources: the analysis still gives the three
    factors in their order, but the first description reads "Story has 0
    source", where the count with its noun in the right number is "0
    sources". *)
Theorem factors_of_unsourced_story :
  Story.sources unsourced_story = []
  /\ (exists f2 f3,
        factors_of (analyzeStoryContent unsourced_story) =
        [ Factor.mk "Source Reliability" (Finite 0.4) "Story has 0 source"; f2; f3 ])
  /\ "Story has 0 source" <> "Story has " +:+ counted_sources 0.
Proof.
  split; [reflexivity |].
  split; [| discriminate].
  do 2 eexists. reflexivity.
Qed.

(** ** The consensus factor *)

(** The third factor of every analysis. *)
Lemma consensus_factor (story : Story.t) :
  factors_of (analyzeStoryContent story) !! 2%nat =
  Some (Factor.mk "Community Consensus"
          (credible_ratio story)
          (Number_toString (Math_round (Number_mul (credible_ratio story) (of_Z 100)))
             +:+ "% of voters find it credible")).
Proof. reflexivity. Qed.

(** The ratio of a story whose counters sum to 0 is [credible / 0]. *)
Lemma credible_ratio_no_total (story : Story.t) :
  Votes.total (Story.votes story) = 0 ->
  credible_ratio story =
  match Votes.credible (Story.votes story) ?= 0 with
  | Eq => NaN
  | Gt => Infinity
  | Lt => NegInfinity
  end.
Proof.
  unfold Votes.total, credible_ratio. intros Htotal.
  rewrite Number_div_of_Z, Htotal. reflexivity.
Qed.

(** The ratio of a story whose counters do not sum to 0 is finite. *)
Lemma credible_ratio_total (story : Story.t) :
  Votes.total (Story.votes story) <> 0 ->
  credible_ratio story =
  Finite (inject_Z (Votes.credible (Story.votes story))
          / inject_Z (Votes.total (Story.votes story))).
Proof.
  unfold Votes.total, credible_ratio. intros Htotal.
  rewrite Number_div_of_Z.
  by destruct (Z.eqb_spec
                 (Votes.credible (Story.votes story)
                  + Votes.suspicious (Story.votes story)
                  + Votes.fake (Story.votes story)) 0).
Qed.

(** C4 as stated fails: for the story without votes the consensus factor has
    score [NaN], not 0 or any other number, and its description is "NaN% of
    voters find it credible", not "no votes yet". *)
Lemma consensus_of_unvoted_story :
  Votes.total (Story.votes unvoted_story) = 0
  /\ exists f,
       factors_of (analyzeStoryContent unvoted_story) !! 2%nat = Some f
       /\ Factor.score f = NaN
       /\ (forall q, Factor.score f <> Finite q)
       /\ Factor.description f = "NaN% of voters find it credible"
       /\ Factor.description f <> "no votes yet".
Proof.
  split; [reflexivity |].
  eexists. split; [apply consensus_factor |].
  cbn [Factor.score Factor.description].
  repeat split; try reflexivity; discriminate.
Qed.

(** C4, amended: for every story whose three counters sum to 0 the consensus
    factor carries the result of dividing [credible] by 0, which is not a
    finite number: [NaN] when [credible] is 0 (the only case with counters
    that are all non-negative), an infinity with the sign of [credible]
    otherwise; the description is that value followed by "% of voters find
    it credible". *)
Theorem consensus_without_votes (story : Story.t) :
  Votes.total (Story.votes story) = 0 ->
  exists f,
    factors_of (analyzeStoryContent story) !! 2%nat = Some f
    /\ Factor.name f = "Community Consensus"
    /\ (forall q, Factor.score f <> Finite q)
    /\ Factor.score f =
       match Votes.credible (Story.votes story) ?= 0 with
       | Eq => NaN
       | Gt => Infinity
       | Lt => NegInfinity
       end
    /\ Factor.description f =
       match Votes.credible (Story.votes story) ?= 0 with
       | Eq => "NaN% of voters find it credible"
       | Gt => "Infinity% of voters find it credible"
       | Lt => "-Infinity% of voters find it credible"
       end.
Proof.
  intros Htotal.
  eexists. split; [apply consensus_factor |].
  cbn [Factor.name Factor.score Factor.description].
  rewrite (credible_ratio_no_total story Htotal).
  split; [reflexivity |].
  destruct (Votes.credible (Story.votes story) ?= 0);
    (split; [discriminate | split; reflexivity]).
Qed.

Lemma consensus_without_votes_witness :
  Votes.total (Story.votes unvoted_story) = 0
  /\ exists f,
       factors_of (analyzeStoryContent unvoted_story) !! 2%nat = Some f
       /\ Factor.score f = NaN
       /\ Factor.description f = "NaN% of voters find it credible".
Proof.
  split; [reflexivity |].
  destruct (consensus_without_votes unvoted_story) as (f & Hf & _ & _ & Hs & Hd);
    [reflexivity |].
  exists f. split; [exact Hf |]. split; [exact Hs | exact Hd].
Defined.

(** C8: for every story with non-negative counters and a positive total the
    consensus score is a number in [0,1].  For a story with sources [a, b],
    spread 60 and votes 45 / 20 / 5 the three scores are 0.8, 0.4 and 45/70,
    which is 0.643 to three decimals, and the consensus description is "64%
    of voters find it credible". *)
Theorem consensus_score_bounds (story : Story.t)
    (Hcredible : 0 <= Votes.credible (Story.votes story))
    (Hsuspicious : 0 <= Votes.suspicious (Story.votes story))
    (Hfake : 0 <= Votes.fake (Story.votes story))
    (Htotal : 0 < Votes.total (Story.votes story))
    (base : Story.t) (a b : string) :
  (exists f q,
     factors_of (analyzeStoryContent story) !! 2%nat = Some f
     /\ Factor.name f = "Community Consensus"
     /\ Factor.score f = Finite q
     /\ (0 <= q)%Q /\ (q <= 1)%Q)
  /\ (exists reliability spread consensus q2 q3,
        factors_of (analyzeStoryContent (scenario base a b)) =
          [reliability; spread; consensus]
        /\ Factor.score reliability = Finite 0.8
        /\ Factor.score spread = Finite q2 /\ (q2 == 0.4)%Q
        /\ Factor.score consensus = Finite q3 /\ (q3 == 45 # 70)%Q
        /\ (round_to_decimals 3 q3 == 0.643)%Q
        /\ Factor.description consensus = "64% of voters find it credible"
        /\ includes (Factor.description consensus) "64%" = true).
Proof.
  split.
  - do 2 eexists. split; [apply consensus_factor |].
    cbn [Factor.name Factor.score].
    split; [reflexivity |].
    split; [apply credible_ratio_total; lia |].
    unfold Votes.total in *.
    set (c := Votes.credible (Story.votes story)) in *.
    set (t := c + Votes.suspicious (Story.votes story)
              + Votes.fake (Story.votes story)) in *.
    assert (Hct : c <= t) by (subst t; lia).
    assert (Hpos : (0 < inject_Z t)%Q) by (unfold Qlt; cbn; lia).
    assert (Hc0 : (0 <= inject_Z c)%Q) by (unfold Qle; cbn; lia).
    assert (Hc1 : (inject_Z c <= inject_Z t)%Q) by (unfold Qle; cbn; lia).
    split.
    + apply Qle_shift_div_l; [exact Hpos | lra].
    + apply Qle_shift_div_r; [exact Hpos | lra].
  - do 5 eexists.
    split; [reflexivity |].
    cbn [Factor.score Factor.description].
    repeat split; reflexivity.
Qed.

Lemma consensus_score_bounds_witness :
  exists f q,
    factors_of (analyzeStoryContent story1) !! 2%nat = Some f
    /\ Factor.score f = Finite q /\ (0 <= q)%Q /\ (q <= 1)%Q.
Proof.
  destruct (consensus_score_bounds story1) with (base := story1) (a := "a") (b := "b")
    as [(f & q & Hf & _ & Hs & Hlo & Hhi) _];
    [vm_compute; discriminate | vm_compute; discriminate
     | vm_compute; discriminate | reflexivity |].
  exists f, q. repeat split; assumption.
Defined.

(** ** The vote store *)

Lemma find_in_Some (h : gmap loc Story.t) (refs : list loc) (storyId : string)
    (l : loc) :
  Service.find_in h refs storyId = Some l ->
  exists story, h !! l = Some story /\ Story.id story = storyId /\ l ∈ refs.
Proof.
  induction refs as [| r refs IH]; cbn [Service.find_in]; [discriminate |].
  destruct (h !! r) as [s |] eqn:Hr.
  - destruct (String.eqb (Story.id s) storyId) eqn:Hid.
    + intros [= <-]. exists s. apply String.eqb_eq in Hid.
      repeat split; [exact Hr | exact Hid | apply list_elem_of_here].
    + intros Hrest. destruct (IH Hrest) as (s' & ? & ? & ?).
      exists s'. repeat split; try assumption. by apply list_elem_of_further.
  - intros Hrest. destruct (IH Hrest) as (s' & ? & ? & ?).
    exists s'. repeat split; try assumption. by apply list_elem_of_further.
Qed.

(** [updateStoryVote] never rejects. *)
Lemma updateStoryVote_resolves (storyId : string) (voteType : VoteKey.t)
    (svc : Service.t) :
  snd (updateStoryVote storyId voteType svc) = Resolved tt.
Proof. unfold updateStoryVote. by destruct (Service.find svc storyId). Qed.

(** [votes[voteType]++] moves one counter by one and nothing else. *)
Lemma increment_spec (voteType : VoteKey.t) (story : Story.t) :
  Votes.get (Story.votes (increment voteType story)) voteType
  = Votes.get (Story.votes story) voteType + 1
  /\ (forall k, k <> voteType ->
        Votes.get (Story.votes (increment voteType story)) k
        = Votes.get (Story.votes story) k)
  /\ Story.with_votes (increment voteType story) (Story.votes story) = story.
Proof.
  destruct story as [? ? ? ? ? ? ? ? ? ? [c s f] ? ?].
  repeat split.
  - by destruct voteType.
  - intros k Hk. by destruct voteType, k.
Qed.

(** C10: when the store holds a story with the given id, [updateStoryVote]
    resolves, adds exactly 1 to [votes[voteType]] of the object [find]
    returns, and leaves that story's other two counters, all its other
    fields, the list of stories and every other object of the store as they
    were.  The counter is a safe integer, so that the double the code
    increments takes the step. *)
Theorem updateStoryVote_frame (svc : Service.t) (storyId : string)
    (voteType : VoteKey.t) (l : loc) (story : Story.t)
    (Hfound : Service.find svc storyId = Some l)
    (Hstory : Service.heap svc !! l = Some story)
    (Hsafe : safe_integer (Votes.get (Story.votes story) voteType)) :
  exists story' svc',
    Story.id story = storyId
    /\ updateStoryVote storyId voteType svc = (svc', Resolved tt)
    /\ Service.stories svc' = Service.stories svc
    /\ Service.heap svc' !! l = Some story'
    /\ Votes.get (Story.votes story') voteType
       = Votes.get (Story.votes story) voteType + 1
    /\ (forall k, k <> voteType ->
          Votes.get (Story.votes story') k = Votes.get (Story.votes story) k)
    /\ Story.with_votes story' (Story.votes story) = story
    /\ (forall l', l' <> l -> Service.heap svc' !! l' = Service.heap svc !! l').
Proof.
  destruct (find_in_Some _ _ _ _ Hfound) as (found & Hl & Hid & _).
  assert (found = story) as -> by congruence.
  exists (increment voteType story).
  eexists. unfold updateStoryVote. rewrite Hfound.
  split; [exact Hid |].
  split; [reflexivity |].
  cbn [Service.stories Service.heap].
  split; [reflexivity |].
  split; [by rewrite lookup_alter_eq, Hl |].
  destruct (increment_spec voteType story) as (Hone & Hothers & Hfields).
  split; [exact Hone |]. split; [exact Hothers |]. split; [exact Hfields |].
  intros l' Hne. by rewrite lookup_alter_ne.
Qed.

Lemma updateStoryVote_frame_witness :
  exists svc',
    updateStoryVote "1" VoteKey.credible sample_service = (svc', Resolved tt)
    /\ Story.votes <$> Service.heap svc' !! 1%positive = Some (Votes.mk 46 20 5)
    /\ Service.heap svc' !! 2%positive = Service.heap sample_service !! 2%positive.
Proof.
  destruct (updateStoryVote_frame sample_service "1" VoteKey.credible 1%positive
              story1)
    as (story' & svc' & _ & Hcall & _ & Hl' & _ & _ & _ & Hframe);
    [reflexivity | reflexivity | vm_compute; split; discriminate |].
  exists svc'. split; [exact Hcall |].
  split.
  - injection Hcall as <-. reflexivity.
  - apply Hframe. discriminate.
Defined.

(** ** The vote handler *)

Lemma patch_votes_id (storyId : string) (voteType : VoteKey.t) (d : Z)
    (story : Story.t) :
  Story.id (patch_votes storyId voteType d story) = Story.id story.
Proof. unfold patch_votes. by destruct (String.eqb (Story.id story) storyId). Qed.

Lemma find_story_patch_votes (storyId : string) (voteType : VoteKey.t) (d : Z)
    (stories : list Story.t) (wanted : string) :
  find_story (map (patch_votes storyId voteType d) stories) wanted =
  patch_votes storyId voteType d <$> find_story stories wanted.
Proof.
  unfold find_story.
  induction stories as [| s stories IH]; [reflexivity |].
  cbn [map List.find]. rewrite patch_votes_id.
  destruct (String.eqb (Story.id s) wanted); [reflexivity | exact IH].
Qed.

(** The tally a [setStories] of [handleVote] leaves for the story voted on. *)
Lemma tally_patch_votes (storyId : string) (voteType : VoteKey.t) (d : Z)
    (stories : list Story.t) (story : Story.t) :
  find_story stories storyId = Some story ->
  tally (map (patch_votes storyId voteType d) stories) storyId =
  Some (Votes.set (Story.votes story) voteType
                  (Votes.get (Story.votes story) voteType + d)).
Proof.
  intros Hfound. unfold tally.
  rewrite find_story_patch_votes, Hfound. cbn [fmap option_fmap option_map].
  unfold patch_votes.
  apply find_some in Hfound as [_ ->]. reflexivity.
Qed.

Section HandlerFacts.

Variable upd : string -> VoteKey.t -> Service.t -> Service.t * Promise unit.

(** The handler when the service call resolves: the counter of every
    story with that id goes up by one in the current state, the vote is
    recorded, and the story analysed is the one of the render the handler
    was created in. *)
Lemma handleVote_resolved (render : Component.t) (storyId : string)
    (voteType : VoteKey.t) (w : World) (svc' : Service.t) (u : unit) :
  truthy_entry (Component.userVotes render) storyId = false ->
  upd storyId voteType (service w) = (svc', Resolved u) ->
  handleVote upd render storyId voteType w =
  (let w1 :=
     mkWorld
       (Component.setUserVotes (fun prev => <[storyId := voteType]> prev)
          (Component.setStories (map (patch_votes storyId voteType 1)) (ui w)))
       svc' (console w) in
   match find_story (Component.stories render) storyId with
   | Some story => analyzeStory story w1
   | None => w1
   end, FinishedTry).
Proof.
  intros Hguard Hcall. unfold handleVote. rewrite Hguard, Hcall. reflexivity.
Qed.

(** The handler when the service call rejects: the error is logged, the
    counter of every story with that id goes down by one in the current
    state, and the entry of [userVotes] is deleted. *)
Lemma handleVote_rejected (render : Component.t) (storyId : string)
    (voteType : VoteKey.t) (w : World) (svc' : Service.t) (reason : string) :
  truthy_entry (Component.userVotes render) storyId = false ->
  upd storyId voteType (service w) = (svc', Rejected reason) ->
  handleVote upd render storyId voteType w =
  (mkWorld
     (Component.setUserVotes (fun prev => delete storyId prev)
        (Component.setStories (map (patch_votes storyId voteType (-1))) (ui w)))
     svc' (console w ++ [("Error updating vote:", reason)]),
   FinishedCatch).
Proof.
  intros Hguard Hcall. unfold handleVote. rewrite Hguard, Hcall. reflexivity.
Qed.

(** After a rejected call the tally of the story voted on is one below what
    it was. *)
Lemma tally_after_rejected (render : Component.t) (storyId : string)
    (voteType : VoteKey.t) (w : World) (svc' : Service.t) (reason : string)
    (story : Story.t) :
  truthy_entry (Component.userVotes render) storyId = false ->
  upd storyId voteType (service w) = (svc', Rejected reason) ->
  find_story (Component.stories (ui w)) storyId = Some story ->
  tally (Component.stories (ui (fst (handleVote upd render storyId voteType w))))
        storyId
  = Some (Votes.set (Story.votes story) voteType
                    (Votes.get (Story.votes story) voteType - 1)).
Proof.
  intros Hguard Hcall Hfound.
  rewrite (handleVote_rejected _ _ _ _ _ _ Hguard Hcall).
  cbn [fst ui Component.setUserVotes Component.setStories Component.stories].
  exact (tally_patch_votes storyId voteType (-1) _ story Hfound).
Qed.

(** After a resolved call it is one above. *)
Lemma tally_after_resolved (render : Component.t) (storyId : string)
    (voteType : VoteKey.t) (w : World) (svc' : Service.t) (u : unit)
    (story : Story.t) :
  truthy_entry (Component.userVotes render) storyId = false ->
  upd storyId voteType (service w) = (svc', Resolved u) ->
  find_story (Component.stories (ui w)) storyId = Some story ->
  tally (Component.stories (ui (fst (handleVote upd render storyId voteType w))))
        storyId
  = Some (Votes.set (Story.votes story) voteType
                    (Votes.get (Story.votes story) voteType + 1)).
Proof.
  intros Hguard Hcall Hfound.
  rewrite (handleVote_resolved _ _ _ _ _ _ Hguard Hcall).
  destruct (find_story (Component.stories render) storyId);
    unfold analyzeStory, analyzeStoryContent, update_ui;
    cbn [fst ui Component.setAnalysis Component.setUserVotes
         Component.setStories Component.stories];
    exact (tally_patch_votes storyId voteType 1 _ story Hfound).
Qed.

End HandlerFacts.




(** The analysis never logs: [analyzeStory] stores the result. *)
Lemma analyzeStory_sets_analysis (story : Story.t) (w : World) :
  exists r,
    analyzeStoryContent story = Resolved r
    /\ analyzeStory story w = update_ui (Component.setAnalysis r) w.
Proof. eexists. split; reflexivity. Qed.

(** C9 as stated fails: a vote for the id "42", which the store does not
    hold, is not rejected.  [updateStoryVote] resolves and [handleVote]
    finishes its [try] block, records the vote and logs nothing. *)
Lemma vote_for_unknown_story_resolves :
  Service.find Service.initial "42" = None
  /\ updateStoryVote "42" VoteKey.credible Service.initial
     = (Service.initial, Resolved tt)
  /\ (forall svc' reason,
        updateStoryVote "42" VoteKey.credible Service.initial
        <> (svc', Rejected reason))
  /\ exists w',
       handleVote updateStoryVote loaded "42" VoteKey.credible world0
       = (w', FinishedTry)
       /\ console w' = []
       /\ Component.userVotes (ui w') !! "42" = Some VoteKey.credible.
Proof.
  split; [reflexivity |].
  split; [reflexivity |].
  split; [intros svc' reason; discriminate |].
  eexists. split; [reflexivity |]. split; reflexivity.
Qed.

(** C9, amended: for every vote on an id the store does not hold,
    [updateStoryVote] resolves and leaves the store as it was, and
    [handleVote] (for a story not voted on before) finishes its [try]
    block: the store and the console are unchanged and the vote is recorded
    in [userVotes]. *)
Theorem vote_for_unknown_story (render : Component.t) (storyId : string)
    (voteType : VoteKey.t) (w : World)
    (Hunknown : Service.find (service w) storyId = None)
    (Hfresh : truthy_entry (Component.userVotes render) storyId = false) :
  updateStoryVote storyId voteType (service w) = (service w, Resolved tt)
  /\ exists w',
       handleVote updateStoryVote render storyId voteType w = (w', FinishedTry)
       /\ service w' = service w
       /\ console w' = console w
       /\ Component.userVotes (ui w') !! storyId = Some voteType.
Proof.
  assert (Hcall : updateStoryVote storyId voteType (service w)
                  = (service w, Resolved tt)).
  { unfold updateStoryVote. by rewrite Hunknown. }
  split; [exact Hcall |].
  rewrite (handleVote_resolved _ _ _ _ _ _ _ Hfresh Hcall).
  destruct (find_story (Component.stories render) storyId) as [story |];
    eexists; (split; [reflexivity |]);
    unfold analyzeStory, analyzeStoryContent, update_ui;
    cbn [ui service console Component.setAnalysis Component.setUserVotes
         Component.userVotes];
    (repeat split; [apply lookup_insert_eq]).
Qed.

Lemma vote_for_unknown_story_witness :
  updateStoryVote "42" VoteKey.suspicious (service world0)
  = (service world0, Resolved tt)
  /\ exists w',
       handleVote updateStoryVote loaded "42" VoteKey.suspicious world0
       = (w', FinishedTry)
       /\ service w' = service world0
       /\ console w' = console world0
       /\ Component.userVotes (ui w') !! "42" = Some VoteKey.suspicious.
Proof.
  apply (vote_for_unknown_story loaded "42" VoteKey.suspicious world0);
    reflexivity.
Defined.

(** C1, at the mock stories with a service call that rejects: the handler
    logs the error and leaves no entry in [userVotes], but the tally of the
    story is 44 / 20 / 5 afterwards where it was 45 / 20 / 5 before. *)
Theorem handleVote_rejected_tally :
  exists w',
    handleVote rejecting_updateStoryVote loaded "1" VoteKey.credible world0
    = (w', FinishedCatch)
    /\ tally (Component.stories (ui world0)) "1" = Some (Votes.mk 45 20 5)
    /\ tally (Component.stories (ui w')) "1" = Some (Votes.mk 44 20 5)
    /\ tally (Component.stories (ui w')) "1" <> tally (Component.stories (ui world0)) "1"
    /\ Component.userVotes (ui w') !! "1" = None
    /\ console w' = [("Error updating vote:", "Failed to update vote")].
Proof.
  eexists. split; [reflexivity |].
  repeat split; try reflexivity. discriminate.
Qed.

(** C7, at the mock stories with the service as shipped: after the vote the
    tally of the story is 46 / 20 / 5, but the analysis stored is the one of
    the story as the render had it, with 45 / 20 / 5: consensus 45/70 and
    "64%", where the story with the new vote gives 46/71 and "65%". *)
Theorem handleVote_reanalysis :
  exists w' r f story',
    handleVote updateStoryVote loaded "1" VoteKey.credible world0
    = (w', FinishedTry)
    /\ find_story (Component.stories (ui w')) "1" = Some story'
    /\ Story.votes story' = Votes.mk 46 20 5
    /\ Component.analysis (ui w') = Some r
    /\ analyzeStoryContent story1 = Resolved r
    /\ analyzeStoryContent story' <> Resolved r
    /\ Explanation.factors (AnalysisResult.explanation r) !! 2%nat = Some f
    /\ Factor.score f = Finite (45 # 70)
    /\ Factor.description f = "64% of voters find it credible"
    /\ factors_of (analyzeStoryContent story') !! 2%nat
       = Some (Factor.mk "Community Consensus" (Finite (46 # 71))
                 "65% of voters find it credible").
Proof.
  do 4 eexists. split; [reflexivity |].
  split; [reflexivity |].
  repeat split; try reflexivity. discriminate.
Qed.

(** * Further properties of the code *)

(** ** Vote percentages *)

(** One rounded percentage of [getVotePercentage], for a positive total. *)
Lemma rounded_percentage (a t : Z) :
  t <> 0 ->
  Math_round (Number_mul (Number_div (of_Z a) (of_Z t)) (of_Z 100))
  = of_Z (round_half_up (inject_Z a / inject_Z t * inject_Z 100)).
Proof.
  intros Ht. rewrite Number_div_of_Z.
  by destruct (Z.eqb_spec t 0).
Qed.

Lemma share_bounds (a t : Z) :
  0 <= a <= t -> 0 < t ->
  (inject_Z 0 <= inject_Z a / inject_Z t * inject_Z 100)%Q
  /\ (inject_Z a / inject_Z t * inject_Z 100 <= inject_Z 100)%Q.
Proof.
  intros [Ha0 Hat] Ht.
  assert (Hpos : (0 < inject_Z t)%Q) by (unfold Qlt; cbn; lia).
  assert (H0 : (0 <= inject_Z a)%Q) by (unfold Qle; cbn; lia).
  assert (H1 : (inject_Z a <= inject_Z t)%Q) by (unfold Qle; cbn; lia).
  assert (Hlo : (0 <= inject_Z a / inject_Z t)%Q)
    by (apply Qle_shift_div_l; [exact Hpos | lra]).
  assert (Hhi : (inject_Z a / inject_Z t <= 1)%Q)
    by (apply Qle_shift_div_r; [exact Hpos | lra]).
  change (inject_Z 0) with 0%Q. change (inject_Z 100) with 100%Q.
  split; nra.
Qed.

(** X1: for non-negative counters with a positive total that is a safe
    integer the three percentages of [getVotePercentage] are integers
    between 0 and 100, and they add up to 99, 100 or 101: each is rounded on
    its own. *)
Theorem getVotePercentage_range (votes : Votes.t)
    (Hcredible : 0 <= Votes.credible votes)
    (Hsuspicious : 0 <= Votes.suspicious votes)
    (Hfake : 0 <= Votes.fake votes)
    (Htotal : 0 < Votes.total votes)
    (Hsafe : safe_integer (Votes.total votes)) :
  exists pc ps pf : Z,
    getVotePercentage votes = VotePercentage.mk (of_Z pc) (of_Z ps) (of_Z pf)
    /\ 0 <= pc <= 100 /\ 0 <= ps <= 100 /\ 0 <= pf <= 100
    /\ 99 <= pc + ps + pf <= 101.
Proof.
  destruct votes as [c s f]. unfold Votes.total in Htotal.
  cbn [Votes.credible Votes.suspicious Votes.fake] in *.
  set (t := c + s + f) in *.
  assert (Ht : t <> 0) by lia.
  set (share a := (inject_Z a / inject_Z t * inject_Z 100)%Q).
  exists (round_half_up (share c)), (round_half_up (share s)),
         (round_half_up (share f)).
  split.
  { unfold getVotePercentage.
    cbn [Votes.credible Votes.suspicious Votes.fake]. fold t.
    by rewrite !rounded_percentage. }
  assert (Hc : 0 <= c <= t) by (subst t; lia).
  assert (Hs : 0 <= s <= t) by (subst t; lia).
  assert (Hf : 0 <= f <= t) by (subst t; lia).
  destruct (share_bounds c t Hc Htotal) as [? ?].
  destruct (share_bounds s t Hs Htotal) as [? ?].
  destruct (share_bounds f t Hf Htotal) as [? ?].
  split; [by apply round_half_up_range |].
  split; [by apply round_half_up_range |].
  split; [by apply round_half_up_range |].
  destruct (round_half_up_nearest (share c)) as [Hc1 Hc2].
  destruct (round_half_up_nearest (share s)) as [Hs1 Hs2].
  destruct (round_half_up_nearest (share f)) as [Hf1 Hf2].
  assert (Hsum : (share c + share s + share f == 100)%Q).
  { unfold share, t. rewrite !inject_Z_plus.
    assert (Hne : ~ (inject_Z c + inject_Z s + inject_Z f == 0)%Q).
    { rewrite <- !inject_Z_plus. change 0%Q with (inject_Z 0).
      rewrite inject_Z_injective. exact Ht. }
    change (inject_Z 100) with 100%Q. field. exact Hne. }
  set (pc := round_half_up (share c)) in *.
  set (ps := round_half_up (share s)) in *.
  set (pf := round_half_up (share f)) in *.
  assert (Hlow : (inject_Z 98 < inject_Z (pc + ps + pf))%Q).
  { rewrite !inject_Z_plus. change (inject_Z 98) with 98%Q. lra. }
  assert (Hhigh : (inject_Z (pc + ps + pf) < inject_Z 102)%Q).
  { rewrite !inject_Z_plus. change (inject_Z 102) with 102%Q. lra. }
  rewrite <- Zlt_Qlt in Hlow, Hhigh. lia.
Qed.

Lemma getVotePercentage_range_witness :
  exists pc ps pf : Z,
    getVotePercentage (Votes.mk 45 20 5)
    = VotePercentage.mk (of_Z pc) (of_Z ps) (of_Z pf)
    /\ 99 <= pc + ps + pf <= 101.
Proof.
  destruct (getVotePercentage_range (Votes.mk 45 20 5))
    as (pc & ps & pf & Heq & _ & _ & _ & Hsum);
    [vm_compute; discriminate | vm_compute; discriminate
     | vm_compute; discriminate | reflexivity
     | vm_compute; split; discriminate |].
  exists pc, ps, pf. split; assumption.
Defined.

(** Both ends of the range of the sum occur. *)
Lemma getVotePercentage_sum_ends :
  getVotePercentage (Votes.mk 1 1 1)
  = VotePercentage.mk (of_Z 33) (of_Z 33) (of_Z 33)
  /\ getVotePercentage (Votes.mk 1 1 4)
     = VotePercentage.mk (of_Z 17) (of_Z 17) (of_Z 67).
Proof. split; reflexivity. Qed.

(** X2: when the three counters sum to 0 none of the three percentages is a
    finite number; with all counters 0, as for a story just loaded, each is
    [NaN] and the buttons read "Credible (NaN%)", "Suspicious (NaN%)" and
    "Fake (NaN%)". *)
Theorem getVotePercentage_no_votes (story : Story.t)
    (Htotal : Votes.total (Story.votes story) = 0) :
  (forall q, VotePercentage.credible (getVotePercentage (Story.votes story))
             <> Finite q)
  /\ (forall q, VotePercentage.suspicious (getVotePercentage (Story.votes story))
                <> Finite q)
  /\ (forall q, VotePercentage.fake (getVotePercentage (Story.votes story))
                <> Finite q)
  /\ (Story.votes story = Votes.mk 0 0 0 ->
      getVotePercentage (Story.votes story) = VotePercentage.mk NaN NaN NaN
      /\ vote_button_text story VoteKey.credible = "Credible (NaN%)"
      /\ vote_button_text story VoteKey.suspicious = "Suspicious (NaN%)"
      /\ vote_button_text story VoteKey.fake = "Fake (NaN%)").
Proof.
  unfold Votes.total in Htotal. unfold getVotePercentage, vote_button_text.
  cbn [VotePercentage.credible VotePercentage.suspicious VotePercentage.fake].
  rewrite Htotal, !Number_div_of_Z. cbn [Z.eqb].
  repeat split.
  - intros q. by destruct (Votes.credible (Story.votes story) ?= 0).
  - intros q. by destruct (Votes.suspicious (Story.votes story) ?= 0).
  - intros q. by destruct (Votes.fake (Story.votes story) ?= 0).
  - by rewrite H.
  - by rewrite H.
  - by rewrite H.
  - by rewrite H.
Qed.

Lemma getVotePercentage_no_votes_witness :
  getVotePercentage (Story.votes unvoted_story) = VotePercentage.mk NaN NaN NaN
  /\ vote_button_text unvoted_story VoteKey.credible = "Credible (NaN%)".
Proof.
  destruct (getVotePercentage_no_votes unvoted_story) as (_ & _ & _ & H);
    [reflexivity |].
  destruct H as (Hall & Hbutton & _); [reflexivity |].
  split; assumption.
Defined.

(** X3: the percentage on the "Credible" button and the one in the
    description of the Community Consensus factor are the same number for
    every story, also when it is [NaN]. *)
Theorem consensus_description_matches_button (story : Story.t) :
  exists f,
    factors_of (analyzeStoryContent story) !! 2%nat = Some f
    /\ Factor.description f
       = Number_toString
           (VotePercentage.credible (getVotePercentage (Story.votes story)))
           +:+ "% of voters find it credible"
    /\ vote_button_text story VoteKey.credible
       = "Credible ("
           +:+ Number_toString
                 (VotePercentage.credible (getVotePercentage (Story.votes story)))
           +:+ "%)".
Proof. eexists. split; [apply consensus_factor |]. split; reflexivity. Qed.

(** ** The story filter *)

Lemma filteredStories_elem (c : Component.t) (story : Story.t) :
  (story ∈ filteredStories c) <->
  (story ∈ Component.stories c
   /\ (Component.filter c = Component.all
       \/ Status.label (Story.verificationStatus story)
          = Filter_label (Component.filter c))).
Proof.
  unfold filteredStories.
  rewrite list_elem_of_In, filter_In, <- list_elem_of_In.
  split; intros [Hin Hkeep]; (split; [exact Hin |]).
  - destruct (String.eqb_spec (Filter_label (Component.filter c)) "all") as [Hall | _].
    + left. by destruct (Component.filter c).
    + right. by apply String.eqb_eq.
  - destruct Hkeep as [-> | Hlabel]; [reflexivity |].
    destruct (String.eqb (Filter_label (Component.filter c)) "all");
      [reflexivity | by apply String.eqb_eq].
Qed.

(** X4: the filter 'all' shows every story, in the order of the state; no
    other filter ever shows a story whose status is 'unverified', since the
    filter has no such member. *)
Theorem unverified_only_under_all (c : Component.t) (story : Story.t)
    (Hstatus : Story.verificationStatus story = Status.unverified) :
  filteredStories (setFilter Component.all c) = Component.stories c
  /\ (Component.filter c <> Component.all -> story ∉ filteredStories c).
Proof.
  split.
  - unfold filteredStories. cbn [setFilter Component.filter Component.stories].
    cbn [Filter_label String.eqb Ascii.eqb Bool.eqb].
    induction (Component.stories c) as [| s l IH]; [reflexivity |].
    cbn [List.filter]. by rewrite IH.
  - intros Hfilter [_ [Hall | Hlabel]]%filteredStories_elem; [contradiction |].
    rewrite Hstatus in Hlabel. by destruct (Component.filter c).
Qed.

Lemma unverified_only_under_all_witness :
  filteredStories (setFilter Component.all loaded_with_unverified)
  = Component.stories loaded_with_unverified
  /\ (unverified_story
      ∉ filteredStories (setFilter Component.investigating loaded_with_unverified))
  /\ (unverified_story ∈ Component.stories loaded_with_unverified).
Proof.
  destruct (unverified_only_under_all
              (setFilter Component.investigating loaded_with_unverified)
              unverified_story)
    as [_ Hnot]; [reflexivity |].
  destruct (unverified_only_under_all loaded_with_unverified unverified_story)
    as [Hall _]; [reflexivity |].
  split; [exact Hall |].
  split; [apply Hnot; discriminate | apply list_elem_of_here].
Defined.

(** X5: the four status filters show disjoint parts of the list which,
    together with the unverified stories, make up all of it: the numbers of
    stories shown under 'investigating', 'real', 'fake' and 'debunked' and
    the number of unverified stories add up to the number of stories. *)
Theorem status_filters_partition (c : Component.t) :
  (length (filteredStories (setFilter Component.investigating c))
   + length (filteredStories (setFilter Component.real c))
   + length (filteredStories (setFilter Component.fake c))
   + length (filteredStories (setFilter Component.debunked c))
   + length (with_status Status.unverified (Component.stories c))
   = length (Component.stories c))%nat.
Proof.
  unfold filteredStories, with_status.
  cbn [setFilter Component.filter Component.stories].
  induction (Component.stories c) as [| s l IH]; [reflexivity |].
  cbn [List.filter].
  destruct (Story.verificationStatus s); cbn in *; lia.
Qed.

(** ** The vote handler, continued *)

Lemma patch_votes_spec (storyId : string) (voteType : VoteKey.t) (d : Z)
    (story : Story.t) :
  Story.with_votes (patch_votes storyId voteType d story) (Story.votes story)
  = story
  /\ (Story.id story <> storyId -> patch_votes storyId voteType d story = story)
  /\ (forall k, k <> voteType ->
        Votes.get (Story.votes (patch_votes storyId voteType d story)) k
        = Votes.get (Story.votes story) k).
Proof.
  unfold patch_votes.
  destruct (String.eqb_spec (Story.id story) storyId) as [Hid | Hid].
  - destruct story as [? ? ? ? ? ? ? ? ? ? [c s f] ? ?].
    repeat split; [contradiction |].
    intros k Hk. by destruct voteType, k.
  - by destruct story.
Qed.

Lemma vote_touched_refl (storyId : string) (voteType : VoteKey.t)
    (stories : list Story.t) :
  Forall2 (vote_touched storyId voteType) stories stories.
Proof.
  induction stories as [| s l IH]; constructor; [| exact IH].
  by destruct s.
Qed.

Lemma vote_touched_patch (storyId : string) (voteType : VoteKey.t) (d : Z)
    (stories : list Story.t) :
  Forall2 (vote_touched storyId voteType) stories
          (map (patch_votes storyId voteType d) stories).
Proof.
  induction stories as [| s l IH]; constructor; [| exact IH].
  apply patch_votes_spec.
Qed.

(** The state after a resolved vote, field by field. *)
Lemma state_after_resolved
    (upd : string -> VoteKey.t -> Service.t -> Service.t * Promise unit)
    (render : Component.t) (storyId : string)
    (voteType : VoteKey.t) (w : World) (svc' : Service.t) (u : unit) :
  truthy_entry (Component.userVotes render) storyId = false ->
  upd storyId voteType (service w) = (svc', Resolved u) ->
  exists shown,
    handleVote upd render storyId voteType w =
    (mkWorld
       (Component.mk
          (map (patch_votes storyId voteType 1) (Component.stories (ui w)))
          (<[storyId := voteType]> (Component.userVotes (ui w)))
          (Component.filter (ui w)) (Component.loading (ui w))
          (Component.error (ui w)) (Component.selectedStory (ui w)) shown)
       svc' (console w),
     FinishedTry)
    /\ shown = match find_story (Component.stories render) storyId with
               | Some story =>
                   match analyzeStoryContent story with
                   | Resolved r => Some r
                   | Rejected _ => Component.analysis (ui w)
                   end
               | None => Component.analysis (ui w)
               end.
Proof.
  intros Hguard Hcall.
  rewrite (handleVote_resolved upd _ _ _ _ _ _ Hguard Hcall).
  destruct (find_story (Component.stories render) storyId);
    eexists; split; reflexivity.
Qed.

(** X6: whatever the service call does, [handleVote] leaves the filter, the
    loading flag, the error and the selected story alone; the list of
    stories keeps its ids and their order, a story with another id is
    unchanged, and a story with the id voted on can differ in
    [votes[voteType]] only. *)
Theorem handleVote_frame
    (upd : string -> VoteKey.t -> Service.t -> Service.t * Promise unit)
    (render : Component.t) (storyId : string)
    (voteType : VoteKey.t) (w : World) :
  let w' := fst (handleVote upd render storyId voteType w) in
  Component.filter (ui w') = Component.filter (ui w)
  /\ Component.loading (ui w') = Component.loading (ui w)
  /\ Component.error (ui w') = Component.error (ui w)
  /\ Component.selectedStory (ui w') = Component.selectedStory (ui w)
  /\ map Story.id (Component.stories (ui w'))
     = map Story.id (Component.stories (ui w))
  /\ Forall2 (vote_touched storyId voteType)
             (Component.stories (ui w)) (Component.stories (ui w')).
Proof.
  assert (Hids : forall d l,
             map Story.id (map (patch_votes storyId voteType d) l)
             = map Story.id l).
  { intros d l. rewrite map_map. apply map_ext. intros s. apply patch_votes_id. }
  destruct (truthy_entry (Component.userVotes render) storyId) eqn:Hguard.
  { unfold handleVote. rewrite Hguard. cbn [fst].
    repeat split. apply vote_touched_refl. }
  destruct (upd storyId voteType (service w)) as [svc' [u | reason]] eqn:Hcall.
  - destruct (state_after_resolved upd _ _ _ _ _ _ Hguard Hcall) as (shown & -> & _).
    cbn [fst ui Component.filter Component.loading Component.error
         Component.selectedStory Component.stories].
    repeat split; [apply Hids | apply vote_touched_patch].
  - rewrite (handleVote_rejected upd _ _ _ _ _ _ Hguard Hcall).
    cbn [fst ui Component.filter Component.loading Component.error
         Component.selectedStory Component.stories Component.setUserVotes
         Component.setStories].
    repeat split; [apply Hids | apply vote_touched_patch].
Qed.

(** X7: when the service call resolves, the vote is counted once: the tally
    of the story, whose counter voted for is a safe integer, goes up by
    exactly 1 in that counter, the vote is recorded in [userVotes], nothing
    is logged, and the three vote buttons of every story with that id are
    disabled from then on. *)
Theorem handleVote_counts_vote
    (upd : string -> VoteKey.t -> Service.t -> Service.t * Promise unit)
    (render : Component.t) (storyId : string)
    (voteType : VoteKey.t) (w : World) (svc' : Service.t) (u : unit)
    (story : Story.t)
    (Hguard : truthy_entry (Component.userVotes render) storyId = false)
    (Hcall : upd storyId voteType (service w) = (svc', Resolved u))
    (Hfound : find_story (Component.stories (ui w)) storyId = Some story)
    (Hsafe : safe_integer (Votes.get (Story.votes story) voteType)) :
  let w' := fst (handleVote upd render storyId voteType w) in
  tally (Component.stories (ui w')) storyId
  = Some (Votes.set (Story.votes story) voteType
                    (Votes.get (Story.votes story) voteType + 1))
  /\ Component.userVotes (ui w') !! storyId = Some voteType
  /\ service w' = svc'
  /\ console w' = console w
  /\ (forall s, Story.id s = storyId -> vote_button_disabled (ui w') s = true).
Proof.
  destruct (state_after_resolved upd _ _ _ _ _ _ Hguard Hcall) as (shown & -> & _).
  cbn [fst ui service console Component.stories Component.userVotes].
  split; [exact (tally_patch_votes storyId voteType 1 _ story Hfound) |].
  split; [apply lookup_insert_eq |].
  do 2 (split; [reflexivity |]).
  intros s Hs. unfold vote_button_disabled, truthy_entry.
  cbn [Component.userVotes]. by rewrite Hs, lookup_insert_eq.
Qed.

(** X8: once a vote has been counted and the component has rendered again,
    a further vote on that story, for any choice and whatever the service
    would do, changes nothing. *)
Theorem second_vote_is_ignored
    (upd upd' : string -> VoteKey.t -> Service.t -> Service.t * Promise unit)
    (render : Component.t) (storyId : string) (voteType voteType' : VoteKey.t)
    (w : World) (svc' : Service.t) (u : unit)
    (Hguard : truthy_entry (Component.userVotes render) storyId = false)
    (Hcall : upd storyId voteType (service w) = (svc', Resolved u)) :
  let w1 := fst (handleVote upd render storyId voteType w) in
  handleVote upd' (ui w1) storyId voteType' w1 = (w1, ReturnedAtGuard).
Proof.
  destruct (state_after_resolved upd _ _ _ _ _ _ Hguard Hcall) as (shown & -> & _).
  cbn [fst]. unfold handleVote at 1, truthy_entry. cbn [ui Component.userVotes].
  by rewrite lookup_insert_eq.
Qed.

(** X9: when the service call rejects, no vote is recorded for the story:
    the entry of [userVotes] is gone, also one that the current state had,
    and the vote buttons of every story with that id stay enabled. *)
Theorem rejected_vote_can_be_retried
    (upd : string -> VoteKey.t -> Service.t -> Service.t * Promise unit)
    (render : Component.t) (storyId : string)
    (voteType : VoteKey.t) (w : World) (svc' : Service.t) (reason : string)
    (Hguard : truthy_entry (Component.userVotes render) storyId = false)
    (Hcall : upd storyId voteType (service w) = (svc', Rejected reason)) :
  let w' := fst (handleVote upd render storyId voteType w) in
  Component.userVotes (ui w') !! storyId = None
  /\ (forall s, Story.id s = storyId -> vote_button_disabled (ui w') s = false)
  /\ truthy_entry (Component.userVotes (ui w')) storyId = false.
Proof.
  rewrite (handleVote_rejected upd _ _ _ _ _ _ Hguard Hcall).
  cbn [fst ui Component.setUserVotes Component.userVotes].
  assert (Hopen : truthy_entry (delete storyId (Component.userVotes (ui w)))
                               storyId = false).
  { unfold truthy_entry in *. rewrite lookup_delete_eq.
    by destruct (Component.userVotes render !! storyId). }
  split; [apply lookup_delete_eq |].
  split; [| exact Hopen].
  intros s Hs. unfold vote_button_disabled. cbn [Component.userVotes].
  by rewrite Hs.
Qed.

(** X10: the analysis a resolved vote stores is the one of the story voted
    on, as the render had it, and the list shows it under whichever story
    is selected, also a different one. *)
Theorem vote_replaces_shown_analysis
    (upd : string -> VoteKey.t -> Service.t -> Service.t * Promise unit)
    (render : Component.t) (storyId : string)
    (voteType : VoteKey.t) (w : World) (svc' : Service.t) (u : unit)
    (selected voted : Story.t)
    (Hguard : truthy_entry (Component.userVotes render) storyId = false)
    (Hcall : upd storyId voteType (service w) = (svc', Resolved u))
    (Hselected : Component.selectedStory (ui w) = Some selected)
    (Hvoted : find_story (Component.stories render) storyId = Some voted) :
  let w' := fst (handleVote upd render storyId voteType w) in
  exists r,
    analyzeStoryContent voted = Resolved r
    /\ Component.selectedStory (ui w') = Some selected
    /\ shown_analysis (ui w') selected = Some r.
Proof.
  destruct (state_after_resolved upd _ _ _ _ _ _ Hguard Hcall) as (shown & -> & ->).
  rewrite Hvoted. eexists. split; [reflexivity |].
  cbn [fst ui Component.selectedStory].
  split; [exact Hselected |].
  unfold shown_analysis. cbn [Component.selectedStory Component.analysis].
  by rewrite Hselected, String.eqb_refl.
Qed.

Lemma handleVote_counts_vote_witness :
  tally (Component.stories
           (ui (fst (handleVote updateStoryVote loaded "1" VoteKey.fake world0))))
        "1"
  = Some (Votes.mk 45 20 6)
  /\ Component.userVotes
       (ui (fst (handleVote updateStoryVote loaded "1" VoteKey.fake world0)))
     !! "1" = Some VoteKey.fake.
Proof.
  destruct (handleVote_counts_vote updateStoryVote loaded "1" VoteKey.fake world0
              Service.initial tt story1)
    as (Htally & Hrecord & _);
    [reflexivity | reflexivity | reflexivity | vm_compute; split; discriminate |].
  split; [exact Htally | exact Hrecord].
Defined.

Lemma second_vote_is_ignored_witness :
  handleVote rejecting_updateStoryVote
    (ui (fst (handleVote updateStoryVote loaded "1" VoteKey.fake world0)))
    "1" VoteKey.credible
    (fst (handleVote updateStoryVote loaded "1" VoteKey.fake world0))
  = (fst (handleVote updateStoryVote loaded "1" VoteKey.fake world0),
     ReturnedAtGuard).
Proof.
  apply (second_vote_is_ignored updateStoryVote rejecting_updateStoryVote loaded
           "1" VoteKey.fake VoteKey.credible world0 Service.initial tt);
    reflexivity.
Defined.

Lemma rejected_vote_can_be_retried_witness :
  Component.userVotes
    (ui (fst (handleVote rejecting_updateStoryVote loaded "1" VoteKey.fake
                (mkWorld voted Service.initial []))))
  !! "1" = None.
Proof.
  destruct (rejected_vote_can_be_retried rejecting_updateStoryVote loaded "1"
              VoteKey.fake (mkWorld voted Service.initial []) Service.initial
              "Failed to update vote")
    as (Hgone & _); [reflexivity | reflexivity |].
  exact Hgone.
Defined.

Lemma vote_replaces_shown_analysis_witness :
  exists r,
    analyzeStoryContent story1 = Resolved r
    /\ shown_analysis
         (ui (fst (handleVote updateStoryVote loaded "1" VoteKey.credible
                     world_selected)))
         story2
       = Some r.
Proof.
  destruct (vote_replaces_shown_analysis updateStoryVote loaded "1"
              VoteKey.credible world_selected Service.initial tt story2 story1)
    as (r & Hr & _ & Hshown);
    [reflexivity | reflexivity | reflexivity | reflexivity |].
  exists r. split; assumption.
Defined.

Lemma Votes_set_twice (v : Votes.t) (k : VoteKey.t) (x y : Z) :
  Votes.set (Votes.set v k x) k y = Votes.set v k y.
Proof. by destruct k. Qed.

Lemma Votes_get_set (v : Votes.t) (k : VoteKey.t) (x : Z) :
  Votes.get (Votes.set v k x) k = x.
Proof. by destruct k. Qed.

(** X11: two votes handled by handlers of the same render, as two clicks
    before the component renders again, both pass the check on [userVotes]:
    with the service as shipped the tally of the story goes up by 2, for one
    entry in [userVotes].  The counter is a safe integer before each of the
    two steps. *)
Theorem stale_render_counts_twice (render : Component.t) (storyId : string)
    (voteType : VoteKey.t) (w : World) (story : Story.t)
    (Hguard : truthy_entry (Component.userVotes render) storyId = false)
    (Hfound : find_story (Component.stories (ui w)) storyId = Some story)
    (Hsafe : safe_integer (Votes.get (Story.votes story) voteType))
    (Hsafe' : safe_integer (Votes.get (Story.votes story) voteType + 1)) :
  let w1 := fst (handleVote updateStoryVote render storyId voteType w) in
  let w2 := fst (handleVote updateStoryVote render storyId voteType w1) in
  snd (handleVote updateStoryVote render storyId voteType w1) = FinishedTry
  /\ tally (Component.stories (ui w2)) storyId
     = Some (Votes.set (Story.votes story) voteType
                       (Votes.get (Story.votes story) voteType + 2))
  /\ Component.userVotes (ui w2)
     = <[storyId := voteType]> (Component.userVotes (ui w)).
Proof.
  assert (Hcalls : forall svc, exists svc',
             updateStoryVote storyId voteType svc = (svc', Resolved tt)).
  { intros svc. unfold updateStoryVote.
    destruct (Service.find svc storyId); eauto. }
  destruct (Hcalls (service w)) as (svc1 & Hcall1).
  destruct (state_after_resolved updateStoryVote _ _ _ _ _ _ Hguard Hcall1)
    as (shown1 & -> & _).
  cbn [fst].
  destruct (Hcalls svc1) as (svc2 & Hcall2).
  destruct (state_after_resolved updateStoryVote render storyId voteType
              (mkWorld
                 (Component.mk
                    (map (patch_votes storyId voteType 1) (Component.stories (ui w)))
                    (<[storyId := voteType]> (Component.userVotes (ui w)))
                    (Component.filter (ui w)) (Component.loading (ui w))
                    (Component.error (ui w)) (Component.selectedStory (ui w))
                    shown1)
                 svc1 (console w))
              svc2 tt Hguard Hcall2)
    as (shown2 & -> & _).
  cbn [fst snd ui Component.stories Component.userVotes].
  split; [reflexivity |].
  split; [| apply insert_insert_eq].
  unfold tally.
  rewrite !find_story_patch_votes, Hfound. cbn [fmap option_fmap option_map].
  apply find_some in Hfound as [_ Hid]. unfold patch_votes.
  cbn [Story.with_votes Story.id Story.votes]. rewrite Hid.
  cbn [Story.with_votes Story.id Story.votes]. rewrite Hid.
  cbn [Story.with_votes Story.id Story.votes].
  rewrite Votes_set_twice, Votes_get_set. do 2 f_equal. lia.
Qed.

Lemma stale_render_counts_twice_witness :
  tally (Component.stories
           (ui (fst (handleVote updateStoryVote loaded "1" VoteKey.credible
                       (fst (handleVote updateStoryVote loaded "1"
                               VoteKey.credible world0))))))
        "1"
  = Some (Votes.mk 47 20 5).
Proof.
  destruct (stale_render_counts_twice loaded "1" VoteKey.credible world0 story1)
    as (_ & Htally & _);
    [reflexivity | reflexivity | vm_compute; split; discriminate
     | vm_compute; split; discriminate |].
  exact Htally.
Defined.

(** ** Selecting a story *)

(** X12: clicking a story that is not the selected one selects it, and the
    effect, which React then runs, stores the analysis of that very story,
    which the list shows under it; stories and recorded votes are as
    before. *)
Theorem click_shows_own_analysis (story : Story.t) (w : World)
    (Hchanged : Component.selectedStory (ui w) <> Some story) :
  let w' := selectedStory_effect (handleStoryClick story w) in
  exists r,
    analyzeStoryContent story = Resolved r
    /\ Component.selectedStory (ui w') = Some story
    /\ shown_analysis (ui w') story = Some r
    /\ Component.stories (ui w') = Component.stories (ui w)
    /\ Component.userVotes (ui w') = Component.userVotes (ui w).
Proof.
  eexists. split; [reflexivity |].
  unfold selectedStory_effect, handleStoryClick, shown_analysis.
  cbn [update_ui ui setSelectedStory Component.selectedStory].
  unfold analyzeStory, analyzeStoryContent.
  cbn [update_ui ui Component.setAnalysis Component.selectedStory
       Component.analysis Component.stories Component.userVotes].
  unfold setSelectedStory.
  cbn [Component.selectedStory Component.analysis Component.stories
       Component.userVotes].
  rewrite String.eqb_refl. repeat split.
Qed.

Lemma click_shows_own_analysis_witness :
  exists r,
    analyzeStoryContent story1 = Resolved r
    /\ shown_analysis
         (ui (selectedStory_effect (handleStoryClick story1 world_selected)))
         story1
       = Some r.
Proof.
  destruct (click_shows_own_analysis story1 world_selected)
    as (r & Hr & _ & Hshown & _); [discriminate |].
  exists r. split; [exact Hr | exact Hshown].
Defined.

(** ** Loading the stories *)

(** X13: however the awaited call ends, [fetchStories] finishes with
    [loading] false and leaves the recorded votes, the selection, the stored
    analysis, the filter and the service alone.  A resolved call replaces
    the stories and clears the error; a rejected one keeps the stories, sets
    the error message and logs the reason. *)
Theorem fetchStories_outcome (awaited : Promise (list Story.t)) (w : World) :
  let w' := fetchStories awaited w in
  Component.loading (ui w') = false
  /\ Component.userVotes (ui w') = Component.userVotes (ui w)
  /\ Component.selectedStory (ui w') = Component.selectedStory (ui w)
  /\ Component.analysis (ui w') = Component.analysis (ui w)
  /\ Component.filter (ui w') = Component.filter (ui w)
  /\ service w' = service w
  /\ match awaited with
     | Resolved fetched =>
         Component.stories (ui w') = fetched
         /\ Component.error (ui w') = None
         /\ console w' = console w
     | Rejected reason =>
         Component.stories (ui w') = Component.stories (ui w)
         /\ Component.error (ui w')
            = Some "Failed to fetch stories. Please try again later."
         /\ console w' = console w ++ [("Error fetching stories:", reason)]
     end.
Proof. destruct awaited; repeat split. Qed.

(** X14: fetching again after a counted vote puts the fetched tally back,
    without the vote, while the vote stays recorded: the buttons of the
    story remain disabled and a further vote on it changes nothing. *)
Theorem refetch_drops_counted_vote
    (upd upd' : string -> VoteKey.t -> Service.t -> Service.t * Promise unit)
    (render : Component.t) (storyId : string) (voteType voteType' : VoteKey.t)
    (w : World) (svc' : Service.t) (u : unit)
    (fetched : list Story.t) (story : Story.t)
    (Hguard : truthy_entry (Component.userVotes render) storyId = false)
    (Hcall : upd storyId voteType (service w) = (svc', Resolved u))
    (Hfetched : find_story fetched storyId = Some story) :
  let w1 := fst (handleVote upd render storyId voteType w) in
  let w2 := fetchStories (Resolved fetched) w1 in
  tally (Component.stories (ui w2)) storyId = Some (Story.votes story)
  /\ vote_button_disabled (ui w2) story = true
  /\ handleVote upd' (ui w2) storyId voteType' w2 = (w2, ReturnedAtGuard).
Proof.
  destruct (state_after_resolved upd _ _ _ _ _ _ Hguard Hcall) as (shown & -> & _).
  cbn [fst]. unfold fetchStories, update_ui, setLoading, setError,
    Component.setStories.
  cbn [update_ui ui service console setLoading setError Component.setStories
       Component.stories Component.userVotes Component.filter Component.loading
       Component.error Component.selectedStory Component.analysis].
  split; [unfold tally; by rewrite Hfetched |].
  apply find_some in Hfetched as Hid. destruct Hid as [_ Hid%String.eqb_eq].
  split.
  - unfold vote_button_disabled, truthy_entry. cbn [ui Component.userVotes].
    by rewrite Hid, lookup_insert_eq.
  - unfold handleVote, truthy_entry. cbn [ui Component.userVotes].
    by rewrite lookup_insert_eq.
Qed.

Lemma refetch_drops_counted_vote_witness :
  tally (Component.stories
           (ui (fetchStories (service_fetchGlobalStories sample_date)
                  (fst (handleVote updateStoryVote loaded "1" VoteKey.credible
                          world0)))))
        "1"
  = Some (Votes.mk 45 20 5)
  /\ vote_button_disabled
       (ui (fetchStories (service_fetchGlobalStories sample_date)
              (fst (handleVote updateStoryVote loaded "1" VoteKey.credible
                      world0))))
       story1
     = true.
Proof.
  destruct (refetch_drops_counted_vote updateStoryVote updateStoryVote loaded "1"
              VoteKey.credible VoteKey.credible world0 Service.initial tt
              (fetchGlobalStories sample_date) story1)
    as (Htally & Hdisabled & _); [reflexivity | reflexivity | reflexivity |].
  split; [exact Htally | exact Hdisabled].
Defined.

(** ** The vote store, continued *)

(** X15: the store of the service as constructed is empty and stays empty:
    after any run of [updateStoryVote] calls it is still the initial one, so
    no vote ever reaches it. *)
Theorem service_never_records (calls : list (string * VoteKey.t)) :
  run_votes calls Service.initial = Service.initial
  /\ Forall (fun call =>
               updateStoryVote (fst call) (snd call) Service.initial
               = (Service.initial, Resolved tt)) calls.
Proof.
  split.
  - unfold run_votes. induction calls as [| call calls IH]; [reflexivity |].
    cbn [fold_left]. exact IH.
  - apply Forall_forall. intros call _. reflexivity.
Qed.

Lemma increment_id (voteType : VoteKey.t) (story : Story.t) :
  Story.id (increment voteType story) = Story.id story.
Proof. reflexivity. Qed.

(** Counting a vote does not change which object an id denotes. *)
Lemma find_in_alter_increment (h : gmap loc Story.t) (refs : list loc)
    (voteType : VoteKey.t) (l : loc) (storyId : string) :
  Service.find_in (alter (increment voteType) l h) refs storyId
  = Service.find_in h refs storyId.
Proof.
  induction refs as [| r refs IH]; [reflexivity |].
  cbn [Service.find_in]. rewrite IH.
  destruct (decide (l = r)) as [-> | Hne].
  - rewrite lookup_alter_eq. by destruct (h !! r).
  - by rewrite lookup_alter_ne.
Qed.

Lemma increment_commute (a b : VoteKey.t) (story : Story.t) :
  increment a (increment b story) = increment b (increment a story).
Proof.
  destruct story as [? ? ? ? ? ? ? ? ? ? [c s f] ? ?].
  destruct a, b; reflexivity.
Qed.

(** X16: the store does not depend on the order in which two votes reach
    it, whether they are for the same story or not, and a vote never changes
    which story an id denotes. *)
Theorem updateStoryVote_commute (svc : Service.t)
    (id1 id2 : string) (vote1 vote2 : VoteKey.t) :
  fst (updateStoryVote id2 vote2 (fst (updateStoryVote id1 vote1 svc)))
  = fst (updateStoryVote id1 vote1 (fst (updateStoryVote id2 vote2 svc)))
  /\ Service.find (fst (updateStoryVote id1 vote1 svc)) id2 = Service.find svc id2.
Proof.
  assert (Hfind : forall a v b,
             Service.find (fst (updateStoryVote a v svc)) b = Service.find svc b).
  { intros a v b. unfold updateStoryVote, Service.find.
    destruct (Service.find_in (Service.heap svc) (Service.stories svc) a);
      cbn [fst Service.heap Service.stories]; [| reflexivity].
    apply find_in_alter_increment. }
  split; [| apply Hfind].
  unfold updateStoryVote at 1 3. rewrite !Hfind.
  unfold updateStoryVote.
  destruct (Service.find svc id1) as [l1 |], (Service.find svc id2) as [l2 |];
    cbn [fst Service.heap Service.stories]; try reflexivity.
  f_equal.
  destruct (decide (l1 = l2)) as [-> | Hne].
  - rewrite !alter_alter_eq. apply alter_ext.
    intros story _. apply increment_commute.
  - apply alter_alter_ne. congruence.
Qed.

(** ** The analysis, continued *)

(** X17: the analysis does not tell suspicious votes from fake votes: two
    stories that differ only in how the votes that are not 'credible' are
    split between the two counters get the same analysis.  The counters and
    the sums the code forms from them, left to right, are safe integers. *)
Theorem analysis_ignores_vote_split (story : Story.t) (c s f s' f' : Z)
    (Hsame : s + f = s' + f')
    (Hc : safe_integer c)
    (Hs : safe_integer s) (Hf : safe_integer f)
    (Hs' : safe_integer s') (Hf' : safe_integer f')
    (Hcs : safe_integer (c + s)) (Hcs' : safe_integer (c + s'))
    (Htotal : safe_integer (c + s + f)) :
  analyzeStoryContent (Story.with_votes story (Votes.mk c s f))
  = analyzeStoryContent (Story.with_votes story (Votes.mk c s' f')).
Proof.
  unfold analyzeStoryContent, credible_ratio, generateConclusion.
  cbn [Story.with_votes Story.votes Story.verificationStatus Story.category
       Story.region Story.sources Story.confidence Story.spread
       Votes.credible Votes.suspicious Votes.fake].
  replace (c + s' + f') with (c + s + f) by lia.
  reflexivity.
Qed.

Lemma analysis_ignores_vote_split_witness :
  analyzeStoryContent (Story.with_votes story1 (Votes.mk 45 20 5))
  = analyzeStoryContent (Story.with_votes story1 (Votes.mk 45 0 25)).
Proof.
  apply analysis_ignores_vote_split;
    solve [reflexivity | vm_compute; split; discriminate].
Defined.

(** X18: for a story with a spread between 0 and 100, non-negative counters
    and at least one vote, every factor of the analysis has a score that is
    a number between 0 and 1. *)
Theorem factor_scores_in_unit_interval (story : Story.t)
    (Hspread_lo : (0 <= Story.spread story)%Q)
    (Hspread_hi : (Story.spread story <= 100)%Q)
    (Hcredible : 0 <= Votes.credible (Story.votes story))
    (Hsuspicious : 0 <= Votes.suspicious (Story.votes story))
    (Hfake : 0 <= Votes.fake (Story.votes story))
    (Htotal : 0 < Votes.total (Story.votes story)) :
  Forall (fun f => exists q, Factor.score f = Finite q
                             /\ (0 <= q)%Q /\ (q <= 1)%Q)
         (factors_of (analyzeStoryContent story)).
Proof.
  rewrite factors_of_analysis.
  apply Forall_cons_2; [| apply Forall_cons_2; [| apply Forall_cons_2;
    [| apply Forall_nil_2]]]; cbn [Factor.score].
  - destruct (1 <? Z.of_nat (length (Story.sources story)));
      eexists; (split; [reflexivity |]); split; unfold Qle; cbn; lia.
  - eexists. split; [reflexivity |].
    assert (H : (Story.spread story / 100 == Story.spread story * (1 # 100))%Q)
      by (field).
    rewrite H. split; lra.
  - rewrite credible_ratio_total by lia.
    eexists. split; [reflexivity |].
    destruct (share_bounds (Votes.credible (Story.votes story))
                (Votes.total (Story.votes story))) as [Hlo Hhi];
      [unfold Votes.total in *; lia | exact Htotal |].
    change (inject_Z 0) with 0%Q in Hlo.
    change (inject_Z 100) with 100%Q in Hlo, Hhi.
    split; lra.
Qed.

Lemma factor_scores_in_unit_interval_witness :
  Forall (fun f => exists q, Factor.score f = Finite q
                             /\ (0 <= q)%Q /\ (q <= 1)%Q)
         (factors_of (analyzeStoryContent story1)).
Proof.
  apply factor_scores_in_unit_interval;
    solve [vm_compute; discriminate | reflexivity].
Defined.

(** ** The alerts *)

(** X19: the explanation [fetchAlerts] builds for a story is the one
    [analyzeStoryContent] resolves with for the same story: factors,
    evidence and conclusion agree. *)
Theorem alert_explanation_matches_analysis (story : Story.t) :
  exists r,
    analyzeStoryContent story = Resolved r
    /\ Alert.explanation (alert_of_story story) = AnalysisResult.explanation r.
Proof. eexists. split; reflexivity. Qed.

Lemma Number_gt_Finite (x y : Q) :
  Number_gt (Finite x) (Finite y) = true <-> (y < x)%Q.
Proof.
  cbn [Number_gt]. rewrite negb_true_iff.
  destruct (Qle_bool x y) eqn:Hle.
  - apply Qle_bool_iff in Hle. split; [discriminate | lra].
  - split; [intros _ | reflexivity].
    apply Qnot_le_lt. intros Hxy. apply Qle_bool_iff in Hxy. congruence.
Qed.

Lemma severity_of_spec (confidence : Q) :
  (severity_of confidence = Severity.high <-> (0.8 < confidence)%Q)
  /\ (severity_of confidence = Severity.low <-> (confidence <= 0.5)%Q).
Proof.
  unfold severity_of.
  destruct (Number_gt (Finite confidence) (Finite 0.8)) eqn:H8;
    destruct (Number_gt (Finite confidence) (Finite 0.5)) eqn:H5.
  all: try (apply Number_gt_Finite in H8).
  all: try (apply Number_gt_Finite in H5).
  all: try (assert (H8' : ~ (0.8 < confidence)%Q)
             by (intros Hc; apply Number_gt_Finite in Hc; congruence)).
  all: try (assert (H5' : ~ (0.5 < confidence)%Q)
             by (intros Hc; apply Number_gt_Finite in Hc; congruence)).
  all: split; split; intros; try discriminate; try reflexivity; try lra.
Qed.

(** X20: an alert is 'high' exactly when the confidence of its story is
    above 0.8 and 'low' exactly when it is at most 0.5 (so 0.8 itself is
    'medium' and 0.5 itself is 'low'), and a higher confidence never gives a
    lower severity. *)
Theorem alert_severity_thresholds (story other : Story.t) :
  (Alert.severity (alert_of_story story) = Severity.high
   <-> (0.8 < Story.confidence story)%Q)
  /\ (Alert.severity (alert_of_story story) = Severity.low
      <-> (Story.confidence story <= 0.5)%Q)
  /\ ((Story.confidence story <= Story.confidence other)%Q ->
      Severity.rank (Alert.severity (alert_of_story story))
      <= Severity.rank (Alert.severity (alert_of_story other))).
Proof.
  change (Alert.severity (alert_of_story story))
    with (severity_of (Story.confidence story)).
  change (Alert.severity (alert_of_story other))
    with (severity_of (Story.confidence other)).
  destruct (severity_of_spec (Story.confidence story)) as [Hhigh Hlow].
  destruct (severity_of_spec (Story.confidence other)) as [Hhigh' Hlow'].
  split; [exact Hhigh |]. split; [exact Hlow |].
  intros Hle.
  destruct (severity_of (Story.confidence story)) eqn:Hs;
    destruct (severity_of (Story.confidence other)) eqn:Hs';
    cbn [Severity.rank]; try lia; exfalso.
  - (* medium, low *)
    assert (~ (Story.confidence story <= 0.5)%Q)
      by (intros Hc; apply Hlow in Hc; discriminate).
    assert ((Story.confidence other <= 0.5)%Q) by (by apply Hlow').
    lra.
  - (* high, low *)
    assert ((0.8 < Story.confidence story)%Q) by (by apply Hhigh).
    assert ((Story.confidence other <= 0.5)%Q) by (by apply Hlow').
    lra.
  - (* high, medium *)
    assert ((0.8 < Story.confidence story)%Q) by (by apply Hhigh).
    assert (~ (0.8 < Story.confidence other)%Q)
      by (intros Hc; apply Hhigh' in Hc; discriminate).
    lra.
Qed.

(** X21: every alert is shown under exactly one of the filters 'low',
    'medium' and 'high': the three lists have the length of the whole list
    between them, and 'all' shows the whole list. *)
Theorem severity_filters_partition (alerts : list Alert.t) :
  filteredAlerts Alerts.all alerts = alerts
  /\ (length (filteredAlerts Alerts.low alerts)
      + length (filteredAlerts Alerts.medium alerts)
      + length (filteredAlerts Alerts.high alerts)
      = length alerts)%nat
  /\ Forall (fun a => Alert.severity a = Severity.low)
            (filteredAlerts Alerts.low alerts)
  /\ Forall (fun a => Alert.severity a = Severity.medium)
            (filteredAlerts Alerts.medium alerts)
  /\ Forall (fun a => Alert.severity a = Severity.high)
            (filteredAlerts Alerts.high alerts).
Proof.
  unfold filteredAlerts.
  split; [| split; [| repeat split]].
  - induction alerts as [| a l IH]; [reflexivity |].
    cbn in *. by rewrite IH.
  - induction alerts as [| a l IH]; [reflexivity |].
    cbn [List.filter]. destruct (Alert.severity a); cbn in *; lia.
  - apply Forall_forall. intros a [_ H]%list_elem_of_In%filter_In.
    by destruct (Alert.severity a).
  - apply Forall_forall. intros a [_ H]%list_elem_of_In%filter_In.
    by destruct (Alert.severity a).
  - apply Forall_forall. intros a [_ H]%list_elem_of_In%filter_In.
    by destruct (Alert.severity a).
Qed.

(** X22: however the awaited call ends, [fetchAlerts] finishes with
    [loading] false and never touches the selected alert or the filter.  A
    resolved call shows one alert per story, in the order of the stories and
    with their ids, and clears the error; a rejected one keeps the alerts it
    had, sets the error message and logs the reason. *)
Theorem fetchAlerts_outcome (awaited : Promise (list Story.t)) (a : Alerts.t) :
  let a' := fetchAlerts awaited a in
  Alerts.loading a' = false
  /\ Alerts.selectedAlert a' = Alerts.selectedAlert a
  /\ Alerts.filter a' = Alerts.filter a
  /\ match awaited with
     | Resolved stories =>
         length (Alerts.alerts a') = length stories
         /\ map Alert.id (Alerts.alerts a') = map Story.id stories
         /\ Alerts.error a' = None
         /\ Alerts.console a' = Alerts.console a
     | Rejected reason =>
         Alerts.alerts a' = Alerts.alerts a
         /\ Alerts.error a'
            = Some "Failed to fetch alerts. Please try again later."
         /\ Alerts.console a'
            = Alerts.console a ++ [("Error fetching alerts:", reason)]
     end.
Proof.
  destruct awaited as [stories | reason]; cbn; repeat split.
  - apply length_map.
  - rewrite map_map. reflexivity.
Qed.

(** ** The news-backed variant: reading the reply *)

Lemma toLowerCase_char_idem (c : ascii) :
  toLowerCase_char (toLowerCase_char c) = toLowerCase_char c.
Proof. destruct c as [[] [] [] [] [] [] [] []]; reflexivity. Qed.

Lemma toLowerCase_idem (s : string) : toLowerCase (toLowerCase s) = toLowerCase s.
Proof.
  induction s as [| c s IH]; [reflexivity |].
  cbn [toLowerCase]. by rewrite toLowerCase_char_idem, IH.
Qed.

Lemma toLowerCase_app (a b : string) :
  toLowerCase (a +:+ b) = toLowerCase a +:+ toLowerCase b.
Proof.
  induction a as [| c a IH]; [reflexivity |].
  simpl. by rewrite IH.
Qed.

Lemma prefix_app (w rest : string) : String.prefix w (w +:+ rest) = true.
Proof.
  induction w as [| c w IH]; [destruct rest; reflexivity |].
  simpl. destruct (ascii_dec c c); [exact IH | contradiction].
Qed.

Lemma includes_prefix (s t : string) :
  String.prefix t s = true -> includes s t = true.
Proof. intros H. destruct s; simpl; simpl in H; rewrite H; reflexivity. Qed.

Lemma includes_app (pre w post : string) :
  includes (pre +:+ w +:+ post) w = true.
Proof.
  induction pre as [| c pre IH].
  - change ("" +:+ w +:+ post) with (w +:+ post).
    apply includes_prefix, prefix_app.
  - simpl. rewrite IH. apply orb_true_r.
Qed.

(** X23: a reply that has the word "fake" anywhere, in any letter case and
    whatever else it says, gives the status 'fake'; and the status read from
    a reply does not depend on the letter case of the reply. *)
Theorem extractVerificationStatus_fake (pre word post analysis : string)
    (Hword : toLowerCase word = "fake") :
  extractVerificationStatus (pre +:+ word +:+ post) = Status.fake
  /\ extractVerificationStatus (toLowerCase analysis)
     = extractVerificationStatus analysis.
Proof.
  split.
  - unfold extractVerificationStatus.
    by rewrite !toLowerCase_app, Hword, includes_app.
  - unfold extractVerificationStatus. by rewrite toLowerCase_idem.
Qed.

Lemma extractVerificationStatus_fake_witness :
  extractVerificationStatus
    ("Status: real. It is certainly not a " +:+ "FAKE" +:+ " story.")
  = Status.fake.
Proof.
  apply (extractVerificationStatus_fake _ "FAKE" _ ""). reflexivity.
Defined.

Lemma after_keyword_prefix (keyword s rest : string) :
  after_keyword keyword s = Some rest ->
  String.prefix keyword (toLowerCase s) = true.
Proof.
  revert s. induction keyword as [| k keyword IH]; intros s.
  - by destruct s.
  - destruct s as [| c s]; [discriminate |].
    simpl.
    destruct (Ascii.eqb_spec (toLowerCase_char c) k) as [-> | _]; [| discriminate].
    intros H. destruct (ascii_dec k k); [by apply IH | contradiction].
Qed.

Lemma includes_tail (c : ascii) (s t : string) :
  includes s t = true -> includes (String c s) t = true.
Proof. intros H. simpl. rewrite H. apply orb_true_r. Qed.

Lemma match_number_includes (keyword analysis digits : string) :
  match_number keyword analysis = Some digits ->
  includes (toLowerCase analysis) keyword = true.
Proof.
  assert (Hhere : forall s d,
             match_here keyword s = Some d ->
             includes (toLowerCase s) keyword = true).
  { intros s d. unfold match_here.
    destruct (after_keyword keyword s) as [rest |] eqn:Hk; [| discriminate].
    intros _. eapply includes_prefix, after_keyword_prefix, Hk. }
  induction analysis as [| c s IH]; simpl.
  - destruct (match_here keyword "") as [d |] eqn:Hm; [| discriminate].
    intros _. exact (Hhere _ _ Hm).
  - destruct (match_here keyword (String c s)) as [d |] eqn:Hm.
    + intros _. exact (Hhere _ _ Hm).
    + intros H. apply includes_tail, IH, H.
Qed.

Lemma clamped_or_50_range (found : option string) :
  0 <= clamped_or_50 found <= 100.
Proof. destruct found as [digits |]; cbn [clamped_or_50]; lia. Qed.

(** X24: the confidence and the spread read from a reply are integers
    between 0 and 100, whatever the reply; each is 50 when the reply does
    not have the keyword, in any letter case. *)
Theorem extracted_numbers_in_range (analysis : string) :
  0 <= extractConfidence analysis <= 100
  /\ 0 <= extractSpread analysis <= 100
  /\ (includes (toLowerCase analysis) "confidence" = false ->
      extractConfidence analysis = 50)
  /\ (includes (toLowerCase analysis) "spread" = false ->
      extractSpread analysis = 50).
Proof.
  pose proof clamped_or_50_range as Hrange.
  assert (Hdefault : forall keyword,
             includes (toLowerCase analysis) keyword = false ->
             clamped_or_50 (match_number keyword analysis) = 50).
  { intros keyword Hno.
    destruct (match_number keyword analysis) as [digits |] eqn:Hm; [| reflexivity].
    apply match_number_includes in Hm. congruence. }
  repeat split; try apply Hrange; apply Hdefault.
Qed.

Lemma match_number_unfold (keyword analysis : string) :
  match_number keyword analysis =
  match match_here keyword analysis with
  | Some digits => Some digits
  | None =>
      match analysis with
      | EmptyString => None
      | String _ rest => match_number keyword rest
      end
  end.
Proof. destruct analysis; reflexivity. Qed.

Lemma span_all (p : ascii -> bool) (a b : string) :
  forallb p (list_ascii_of_string a) = true ->
  match b with
  | EmptyString => true
  | String c _ => negb (p c)
  end = true ->
  span p (a +:+ b) = (a, b).
Proof.
  intros Ha Hb. induction a as [| c a IH].
  - simpl. destruct b as [| c b]; [reflexivity |].
    simpl. apply negb_true_iff in Hb. by rewrite Hb.
  - simpl in Ha. apply andb_true_iff in Ha as [Hc Ha].
    simpl. by rewrite Hc, (IH Ha).
Qed.

Lemma after_keyword_app (keyword word rest : string) :
  toLowerCase word = keyword ->
  after_keyword keyword (word +:+ rest) = Some rest.
Proof.
  revert keyword. induction word as [| c word IH]; intros keyword Hword.
  - by subst keyword.
  - subst keyword. simpl. rewrite Ascii.eqb_refl. by apply IH.
Qed.

Lemma digit_not_separator (c : ascii) : is_digit c = true -> is_separator c = false.
Proof. destruct c as [[] [] [] [] [] [] [] []]; vm_compute; congruence. Qed.

Lemma match_number_skip (pre s : string) :
  forallb (fun c => negb (Ascii.eqb (toLowerCase_char c) "c"))
          (list_ascii_of_string pre) = true ->
  match_number "confidence" (pre +:+ s) = match_number "confidence" s.
Proof.
  induction pre as [| c pre IH]; [reflexivity |].
  simpl. intros [Hc Hpre]%andb_true_iff.
  apply negb_true_iff in Hc.
  unfold match_here at 1. simpl. rewrite Hc. by apply IH.
Qed.

(** X25: when the first "c" or "C" of the reply starts the word
    "confidence", in any letter case, followed by colons or white space and
    then digits, the confidence is the number these digits spell, cut to at
    most 100, and whatever follows the digits is not read: of a decimal
    fraction such as "0.85", on the scale from 0 to 1 the prompt asks for,
    only the "0" before the point counts. *)
Theorem extractConfidence_reads_integer
    (pre word separators digits rest : string)
    (Hpre : forallb (fun c => negb (Ascii.eqb (toLowerCase_char c) "c"))
                    (list_ascii_of_string pre) = true)
    (Hword : toLowerCase word = "confidence")
    (Hseparators : forallb is_separator (list_ascii_of_string separators) = true)
    (Hsome_separator : separators <> "")
    (Hdigits : forallb is_digit (list_ascii_of_string digits) = true)
    (Hsome_digit : digits <> "")
    (Hrest : match rest with
             | EmptyString => true
             | String c _ => negb (is_digit c)
             end = true) :
  extractConfidence (pre +:+ word +:+ separators +:+ digits +:+ rest)
  = Z.min 100 (Z.max 0 (parseInt digits)).
Proof.
  unfold extractConfidence. rewrite (match_number_skip pre _ Hpre).
  assert (Hhere : match_here "confidence"
                    (word +:+ separators +:+ digits +:+ rest) = Some digits).
  { unfold match_here. rewrite (after_keyword_app _ _ _ Hword).
    rewrite (span_all is_separator separators (digits +:+ rest) Hseparators).
    - destruct separators; [contradiction |].
      rewrite (span_all is_digit digits rest Hdigits Hrest).
      by destruct digits.
    - destruct digits as [| d digits]; [contradiction |].
      simpl. simpl in Hdigits.
      apply andb_true_iff in Hdigits as [Hd _].
      by rewrite (digit_not_separator d Hd). }
  by rewrite match_number_unfold, Hhere.
Qed.

Lemma extractConfidence_reads_integer_witness :
  extractConfidence
    ("1. Status: real 2. " +:+ "Confidence" +:+ ": " +:+ "0"
       +:+ ".85 (on the 0-1 scale)")
  = 0.
Proof.
  rewrite (extractConfidence_reads_integer "1. Status: real 2. " "Confidence"
             ": " "0" ".85 (on the 0-1 scale)");
    [reflexivity | reflexivity | reflexivity | reflexivity | discriminate
     | reflexivity | discriminate | reflexivity].
Defined.

(** ** The news-backed variant: analysing, filtering and sorting *)

(** X26: whatever the awaited completion gave, [analyzeStoryWithAI] keeps
    id, title, description, region, coordinates, sources, date and votes of
    the story.  When the call rejects, the story is returned as it was and
    the reason is logged.  When it resolves, the story gets a status, and a
    confidence and a spread that are integers between 0 and 100; a missing
    or empty content gives 'unverified', 50 and 50. *)
Theorem analyzeStoryWithAI_outcome (story : PartialStory.t)
    (awaited : Promise (option string)) :
  let story' := fst (analyzeStoryWithAI story awaited) in
  let logged := snd (analyzeStoryWithAI story awaited) in
  PartialStory.id story' = PartialStory.id story
  /\ PartialStory.title story' = PartialStory.title story
  /\ PartialStory.description story' = PartialStory.description story
  /\ PartialStory.region story' = PartialStory.region story
  /\ PartialStory.coordinates story' = PartialStory.coordinates story
  /\ PartialStory.sources story' = PartialStory.sources story
  /\ PartialStory.dateDetected story' = PartialStory.dateDetected story
  /\ PartialStory.votes story' = PartialStory.votes story
  /\ match awaited with
     | Rejected reason =>
         story' = story
         /\ logged = [("Error analyzing story with AI:", reason)]
     | Resolved content =>
         logged = []
         /\ exists st c s,
              PartialStory.verificationStatus story' = Some st
              /\ PartialStory.confidence story' = Some (inject_Z c)
              /\ PartialStory.spread story' = Some (inject_Z s)
              /\ 0 <= c <= 100 /\ 0 <= s <= 100
              /\ (content = None \/ content = Some "" ->
                  st = Status.unverified /\ c = 50 /\ s = 50)
     end.
Proof.
  destruct awaited as [content | reason]; cbn; repeat split.
  do 3 eexists. do 3 (split; [reflexivity |]).
  split; [apply clamped_or_50_range |].
  split; [apply clamped_or_50_range |].
  intros [-> | ->]; repeat split.
Qed.

(** X27: the filter of [fetchGlobalStories] keeps every story whose status
    is 'real', 'unverified', 'investigating' or 'debunked', also one without
    id, title or description; these three are required of a 'fake' story
    only.  A story without status is dropped. *)
Theorem kept_precedence (story : PartialStory.t) :
  kept story = true <->
  match PartialStory.verificationStatus story with
  | Some Status.fake =>
      is_Some (PartialStory.id story)
      /\ is_Some (PartialStory.title story)
      /\ is_Some (PartialStory.description story)
  | Some _ => True
  | None => False
  end.
Proof.
  unfold kept, status_is.
  destruct (PartialStory.verificationStatus story) as [[] |]; cbn;
    rewrite ?orb_true_r, ?orb_false_r, ?andb_true_r, ?andb_false_r;
    try tauto; try (split; [discriminate | contradiction]).
  rewrite !andb_true_iff, !bool_decide_eq_true. tauto.
Qed.

Lemma before_true (a b : PartialStory.t) : before a b = true -> spread_ge a b.
Proof.
  unfold before, spread_ge. intros H. apply Qle_bool_iff in H. lra.
Qed.

Lemma before_false (a b : PartialStory.t) : before a b = false -> spread_ge b a.
Proof.
  unfold before, spread_ge. intros H.
  destruct (Qlt_le_dec 0 (spread_or_0 b - spread_or_0 a)) as [Hlt | Hle]; [lra |].
  apply Qle_bool_iff in Hle. congruence.
Qed.

Lemma insert_sorted_perm (x : PartialStory.t) (l : list PartialStory.t) :
  insert_sorted x l ≡ₚ x :: l.
Proof.
  induction l as [| y l IH]; [reflexivity |].
  cbn [insert_sorted]. destruct (before x y); [reflexivity |].
  rewrite IH. apply Permutation_swap.
Qed.

Lemma sort_by_spread_perm (l : list PartialStory.t) : sort_by_spread l ≡ₚ l.
Proof.
  induction l as [| x l IH]; [reflexivity |].
  cbn [sort_by_spread foldr]. fold (sort_by_spread l).
  by rewrite insert_sorted_perm, IH.
Qed.

Lemma insert_sorted_Sorted (x : PartialStory.t) (l : list PartialStory.t) :
  Sorted spread_ge l -> Sorted spread_ge (insert_sorted x l).
Proof.
  induction l as [| y l IH]; intros Hsorted.
  - repeat constructor.
  - cbn [insert_sorted]. destruct (before x y) eqn:Hxy.
    + constructor; [exact Hsorted |]. constructor. exact (before_true _ _ Hxy).
    + apply Sorted_inv in Hsorted as [Hl Hhd].
      constructor; [by apply IH |].
      destruct l as [| z l]; cbn [insert_sorted].
      * constructor. exact (before_false _ _ Hxy).
      * destruct (before x z); constructor.
        -- exact (before_false _ _ Hxy).
        -- by apply HdRel_inv in Hhd.
Qed.

Lemma sort_by_spread_Sorted (l : list PartialStory.t) :
  Sorted spread_ge (sort_by_spread l).
Proof.
  induction l as [| x l IH]; [constructor |].
  cbn [sort_by_spread foldr]. by apply insert_sorted_Sorted.
Qed.

(** X28: the stories [fetchGlobalStories] returns are the analysed stories
    that pass the filter, each once, by falling spread: every story has at
    least the spread of every story after it, a missing spread counting as
    0. *)
Theorem fetchGlobalStories_news_sorted
    (rawStories : list (PartialStory.t * Promise (option string))) :
  fetchGlobalStories_news rawStories
  ≡ₚ List.filter kept
       (map (fun raw => fst (analyzeStoryWithAI (fst raw) (snd raw))) rawStories)
  /\ StronglySorted spread_ge (fetchGlobalStories_news rawStories)
  /\ Forall (fun story => kept story = true) (fetchGlobalStories_news rawStories).
Proof.
  unfold fetchGlobalStories_news.
  split; [apply sort_by_spread_perm |].
  split.
  - apply Sorted_StronglySorted; [| apply sort_by_spread_Sorted].
    intros a b c. unfold spread_ge. lra.
  - rewrite sort_by_spread_perm. apply Forall_forall.
    intros story [_ H]%list_elem_of_In%filter_In. exact H.
Qed.

(** X29: a story that has an id, a title, a description and a status, as
    every story the news loader builds has, is never dropped: the result
    has as many stories as were loaded, whatever the replies were. *)
Theorem loaded_stories_all_returned
    (rawStories : list (PartialStory.t * Promise (option string)))
    (Hbuilt : Forall (fun raw =>
                        is_Some (PartialStory.id (fst raw))
                        /\ is_Some (PartialStory.title (fst raw))
                        /\ is_Some (PartialStory.description (fst raw))
                        /\ is_Some (PartialStory.verificationStatus (fst raw)))
                     rawStories) :
  fetchGlobalStories_news rawStories
  ≡ₚ map (fun raw => fst (analyzeStoryWithAI (fst raw) (snd raw))) rawStories
  /\ length (fetchGlobalStories_news rawStories) = length rawStories.
Proof.
  assert (Hall : List.filter kept
                   (map (fun raw => fst (analyzeStoryWithAI (fst raw) (snd raw)))
                        rawStories)
                 = map (fun raw => fst (analyzeStoryWithAI (fst raw) (snd raw)))
                       rawStories).
  { induction Hbuilt as [| [story awaited] l (Hid & Htitle & Hdescr & Hstatus) _ IH];
      [reflexivity |].
    cbn [map List.filter fst snd]. rewrite IH.
    assert (Hkept : kept (fst (analyzeStoryWithAI story awaited)) = true);
      [| by rewrite Hkept].
    cbn [fst] in *.
    destruct awaited as [content | reason]; cbn [analyzeStoryWithAI fst].
    - unfold kept, status_is; cbn.
      rewrite !bool_decide_eq_true_2 by assumption.
      by destruct (extractVerificationStatus _).
    - destruct Hstatus as [st Hst]. unfold kept, status_is. rewrite Hst.
      rewrite !bool_decide_eq_true_2 by assumption.
      by destruct st. }
  unfold fetchGlobalStories_news. rewrite Hall.
  split; [apply sort_by_spread_perm |].
  by rewrite sort_by_spread_perm, length_map.
Qed.

Lemma loaded_stories_all_returned_witness :
  length (fetchGlobalStories_news sample_raw) = 2%nat.
Proof.
  destruct (loaded_stories_all_returned sample_raw) as [_ Hlength].
  - repeat constructor; eexists; reflexivity.
  - exact Hlength.
Defined.
